(** * The status-line renderer of claude-code-router

    A shallow embedding of [src/utils/statusline.ts] and the properties of
    its colour resolution, token accounting and the two renderers.

    Conventions of the embedding.
    - A JavaScript string is the list of its UTF-16 code units ([jsstring]);
      [length], indexing, [substring], [trim] and the regular expressions of
      the source all work on code units.  String literals of the source are
      written as Rocq strings and coerced with [js].
    - Numbers that the code handles are integers (token counts, colour
      channels, table indices) and are embedded in [Z]; the "not a number"
      result of [parseInt] is [None].
    - Object literals used as tables ([COLORS], [COLOR_MAP], the variable
      map) are read through their own keys: the names that every object
      inherits ([constructor], [toString] and the like) are not colour
      tokens or variables of the model.
    - Effects (the file system, the git query, script modules, the console)
      act on an abstract [World]; a computation is a function from the world
      to an outcome, which is a returned value or a thrown exception, and the
      world after it.  A script module may do anything to the world; it reads
      the variable map and does not write it. *)

From Stdlib Require Import ZArith NArith Lia List String Ascii DecimalString.
From stdpp Require Import base option list gmap.

Local Open Scope string_scope.
Local Open Scope list_scope.
Local Open Scope Z_scope.

(** ** JavaScript strings *)

Abbreviation jsstring := (list N).

Definition js (s : string) : jsstring :=
  map N_of_ascii (list_ascii_of_string s).

Coercion js : string >-> list.

Definition jsstring_eqb (a b : jsstring) : bool := bool_decide (a = b).

(** Template-literal conversion of an integer: [`${n}`]. *)
Definition show_Z (n : Z) : jsstring :=
  js (NilEmpty.string_of_int (Z.to_int n)).

(** [WhiteSpace] and [LineTerminator] code units of ECMAScript: what
    [String.prototype.trim] removes and what [parseInt] skips. *)
Definition isWhiteSpace (c : N) : bool :=
  ((c =? 9) || (c =? 10) || (c =? 11) || (c =? 12) || (c =? 13) || (c =? 32)
   || (c =? 160) || (c =? 5760) || ((8192 <=? c) && (c <=? 8202))
   || (c =? 8232) || (c =? 8233) || (c =? 8239) || (c =? 8287)
   || (c =? 12288) || (c =? 65279))%N.

Fixpoint trimStart (s : jsstring) : jsstring :=
  match s with
  | c :: s' => if isWhiteSpace c then trimStart s' else s
  | [] => []
  end.

Definition trimEnd (s : jsstring) : jsstring := rev (trimStart (rev s)).

Definition trim (s : jsstring) : jsstring := trimEnd (trimStart s).

(** [s.substring(from, to)] for [0 <= from <= to]. *)
Definition substring (from to : nat) (s : jsstring) : jsstring :=
  take (to - from) (drop from s).

Definition startsWith (p s : jsstring) : bool :=
  jsstring_eqb (take (length p) s) p.

(** [s.includes(p)]. *)
Fixpoint includes (p s : jsstring) : bool :=
  startsWith p s ||
  match s with
  | _ :: s' => includes p s'
  | [] => false
  end.

(** [s.split(sep)] for a separator of one code unit. *)
Fixpoint split (sep : N) (s : jsstring) : list jsstring :=
  match s with
  | [] => [[]]
  | c :: s' =>
      if (c =? sep)%N then [] :: split sep s'
      else match split sep s' with
           | w :: ws => (c :: w) :: ws
           | [] => [[c]]
           end
  end.

(** [parts.join(sep)]. *)
Fixpoint join (sep : jsstring) (parts : list jsstring) : jsstring :=
  match parts with
  | [] => []
  | [p] => p
  | p :: ps => p ++ sep ++ join sep ps
  end.

(** ** Hexadecimal colours *)

Record Rgb := { r : Z; g : Z; b : Z }.

(** An object [{ r, g, b }] as the lookup of a colour returns it: three
    channels that are integers, or the three channels [NaN] that the
    arithmetic of [color256ToRgb] gives for an index that is no number. *)
Inductive TrueColor :=
| Channels (c : Rgb)
| NaNChannels.

Coercion Channels : Rgb >-> TrueColor.

(** The value of a radix-16 digit. *)
Definition hexDigit (c : N) : option Z :=
  if ((48 <=? c) && (c <=? 57))%N then Some (Z.of_N c - 48)
  else if ((97 <=? c) && (c <=? 102))%N then Some (Z.of_N c - 87)
  else if ((65 <=? c) && (c <=? 70))%N then Some (Z.of_N c - 55)
  else None.

Definition isHexDigit (c : N) : bool := bool_decide (is_Some (hexDigit c)).

(** The digits of the longest prefix of radix-16 digits, most significant
    first. *)
Fixpoint hexPrefix (s : jsstring) : list Z :=
  match s with
  | c :: s' => match hexDigit c with
               | Some d => d :: hexPrefix s'
               | None => []
               end
  | [] => []
  end.

Definition hexValue (ds : list Z) : Z := fold_left (fun acc d => 16 * acc + d) ds 0.

(** [parseInt(s, 16)]: leading white space is skipped, one sign is read, a
    [0x] or [0X] prefix is dropped, then the longest prefix of digits is
    read and whatever follows is ignored; no digit at all gives NaN. *)
Definition parseInt16 (s : jsstring) : option Z :=
  let s1 := trimStart s in
  let '(sign, s2) :=
    match s1 with
    | c :: s' =>
        if (c =? 45)%N then (-1, s')
        else if (c =? 43)%N then (1, s')
        else (1, s1)
    | [] => (1, s1)
    end in
  let s3 :=
    match s2 with
    | c :: x :: s' =>
        if ((c =? 48) && ((x =? 120) || (x =? 88)))%N then s' else s2
    | _ => s2
    end in
  match hexPrefix s3 with
  | [] => None
  | ds => Some (sign * hexValue ds)
  end.

(** [hex.replace(/^#/, '')]. *)
Definition stripHash (s : jsstring) : jsstring :=
  match s with
  | c :: s' => if (c =? 35)%N then s' else s
  | [] => []
  end.

Definition hexToRgb (hex : jsstring) : option Rgb :=
  let hex := trim (stripHash hex) in
  let hex :=
    match hex with
    | [h0; h1; h2] => [h0; h0; h1; h1; h2; h2]
    | _ => hex
    end in
  if negb (length hex =? 6)%nat then None
  else
    match parseInt16 (substring 0 2 hex), parseInt16 (substring 2 4 hex),
          parseInt16 (substring 4 6 hex) with
    | Some r, Some g, Some b =>
        if (r <? 0) || (r >? 255) || (g <? 0) || (g >? 255) || (b <? 0) || (b >? 255)
        then None
        else Some {| r := r; g := g; b := b |}
    | _, _, _ => None
    end.

(** [/^[0-9a-fA-F]{n}$/.test(s)]. *)
Definition isHexDigits (n : nat) (s : jsstring) : bool :=
  (length s =? n)%nat && forallb isHexDigit s.

(** The test that routes a colour token to [hexToRgb]. *)
Definition looksLikeHex (colorName : jsstring) : bool :=
  startsWith "#" colorName || isHexDigits 6 colorName || isHexDigits 3 colorName.

(** ** ANSI escape sequences and the colour tables *)

(** The escape character and an escape sequence ["\x1b" ++ rest]. *)
Definition ESC : N := 27%N.

Definition esc (rest : string) : jsstring := ESC :: js rest.

(** Lookup of an own key in a table given as an object literal. *)
Fixpoint lookupKey {A : Type} (table : list (jsstring * A)) (key : jsstring) : option A :=
  match table with
  | [] => None
  | (k, v) :: table' => if jsstring_eqb k key then Some v else lookupKey table' key
  end.

(** The properties that every object literal inherits from
    [Object.prototype], each with the text that a template literal or
    [String.prototype.replace] prints for its value: the built-in functions,
    and for [__proto__] the prototype itself. *)
Definition nativeFunction (name : string) : jsstring :=
  js "function " ++ js name ++ js "() { [native code] }".

Definition Object_prototype : list (jsstring * jsstring) :=
  [ (js "constructor", nativeFunction "Object");
    (js "__defineGetter__", nativeFunction "__defineGetter__");
    (js "__defineSetter__", nativeFunction "__defineSetter__");
    (js "hasOwnProperty", nativeFunction "hasOwnProperty");
    (js "__lookupGetter__", nativeFunction "__lookupGetter__");
    (js "__lookupSetter__", nativeFunction "__lookupSetter__");
    (js "isPrototypeOf", nativeFunction "isPrototypeOf");
    (js "propertyIsEnumerable", nativeFunction "propertyIsEnumerable");
    (js "toString", nativeFunction "toString");
    (js "valueOf", nativeFunction "valueOf");
    (js "__proto__", js "[object Object]");
    (js "toLocaleString", nativeFunction "toLocaleString") ].

Definition inherited (key : jsstring) : option jsstring :=
  lookupKey Object_prototype key.

(** [object[key]] as text, for an object literal whose own values are
    strings: the own value when there is one, else the inherited one;
    [None] is [undefined]. *)
Definition readProperty (own : option jsstring) (key : jsstring) : option jsstring :=
  match own with
  | Some v => Some v
  | None => inherited key
  end.

Definition COLORS : list (jsstring * jsstring) :=
  [ (js "reset", esc "[0m"); (js "bold", esc "[1m"); (js "dim", esc "[2m");
    (js "black", esc "[30m"); (js "red", esc "[31m"); (js "green", esc "[32m");
    (js "yellow", esc "[33m"); (js "blue", esc "[34m"); (js "magenta", esc "[35m");
    (js "cyan", esc "[36m"); (js "white", esc "[37m");
    (js "bright_black", esc "[90m"); (js "bright_red", esc "[91m");
    (js "bright_green", esc "[92m"); (js "bright_yellow", esc "[93m");
    (js "bright_blue", esc "[94m"); (js "bright_magenta", esc "[95m");
    (js "bright_cyan", esc "[96m"); (js "bright_white", esc "[97m");
    (js "bg_black", esc "[40m"); (js "bg_red", esc "[41m");
    (js "bg_green", esc "[42m"); (js "bg_yellow", esc "[43m");
    (js "bg_blue", esc "[44m"); (js "bg_magenta", esc "[45m");
    (js "bg_cyan", esc "[46m"); (js "bg_white", esc "[47m");
    (js "bg_bright_black", esc "[100m"); (js "bg_bright_red", esc "[101m");
    (js "bg_bright_green", esc "[102m"); (js "bg_bright_yellow", esc "[103m");
    (js "bg_bright_blue", esc "[104m"); (js "bg_bright_magenta", esc "[105m");
    (js "bg_bright_cyan", esc "[106m"); (js "bg_bright_white", esc "[107m") ].

Definition COLORS_reset : jsstring := esc "[0m".

Definition TRUE_COLOR_PREFIX : jsstring := esc "[38;2;".
Definition TRUE_COLOR_BG_PREFIX : jsstring := esc "[48;2;".

(** [`\x1b[38;2;${r};${g};${b}m`] and [`\x1b[48;2;${r};${g};${b}m`]. *)
Definition showChannel (channel : Rgb -> Z) (c : TrueColor) : jsstring :=
  match c with
  | Channels c => show_Z (channel c)
  | NaNChannels => js "NaN"
  end.

Definition fgTrueColor (c : TrueColor) : jsstring :=
  TRUE_COLOR_PREFIX ++ showChannel r c ++ js ";" ++ showChannel g c ++ js ";"
    ++ showChannel b c ++ js "m".

Definition bgTrueColor (c : TrueColor) : jsstring :=
  TRUE_COLOR_BG_PREFIX ++ showChannel r c ++ js ";" ++ showChannel g c ++ js ";"
    ++ showChannel b c ++ js "m".

(** The result is used in template literals only, so that the function
    that [COLORS[colorName]] is for an inherited name stands here as its
    text. *)
Definition getColorCode (colorName : jsstring) : jsstring :=
  match (if looksLikeHex colorName then hexToRgb colorName else None) with
  | Some rgb => fgTrueColor rgb
  | None =>
      match readProperty (lookupKey COLORS colorName) colorName with
      | Some code => code
      | None => []
      end
  end.

(** Powerline separator, U+E0B0. *)
Definition SEP_RIGHT : jsstring := [57520%N].

Definition COLOR_MAP : list (jsstring * Z) :=
  [ (js "black", 0); (js "red", 1); (js "green", 2); (js "yellow", 3);
    (js "blue", 4); (js "magenta", 5); (js "cyan", 6); (js "white", 7);
    (js "bright_black", 8); (js "bright_red", 9); (js "bright_green", 10);
    (js "bright_yellow", 11); (js "bright_blue", 12); (js "bright_magenta", 13);
    (js "bright_cyan", 14); (js "bright_white", 15);
    (js "bg_black", 0); (js "bg_red", 1); (js "bg_green", 2); (js "bg_yellow", 3);
    (js "bg_blue", 4); (js "bg_magenta", 5); (js "bg_cyan", 6); (js "bg_white", 7);
    (js "bg_bright_black", 8); (js "bg_bright_red", 9); (js "bg_bright_green", 10);
    (js "bg_bright_yellow", 11); (js "bg_bright_blue", 12);
    (js "bg_bright_magenta", 13); (js "bg_bright_cyan", 14);
    (js "bg_bright_white", 15);
    (js "bg_bright_orange", 202); (js "bg_bright_purple", 129) ].

Definition basicColors : list (Z * Z * Z) :=
  [ (0, 0, 0); (128, 0, 0); (0, 128, 0); (128, 128, 0);
    (0, 0, 128); (128, 0, 128); (0, 128, 128); (192, 192, 192);
    (128, 128, 128); (255, 0, 0); (0, 255, 0); (255, 255, 0);
    (0, 0, 255); (255, 0, 255); (0, 255, 255); (255, 255, 255) ].

Definition cubeLevels : list Z := [0; 95; 135; 175; 215; 255].

(** [Math.floor(a / b)] on integers, and the remainder [a % b]. *)
Definition floorDiv (a b : Z) : Z := a / b.
Definition jsRem (a b : Z) : Z := Z.rem a b.

Definition color256ToRgb (index : Z) : option Rgb :=
  if (index <? 0) || (index >? 255) then None
  else if index <? 16 then
    '(cr, cg, cb) ← basicColors !! Z.to_nat index;
    Some {| r := cr; g := cg; b := cb |}
  else if index <? 232 then
    let i := index - 16 in
    let ri := floorDiv i 36 in
    let gi := floorDiv (jsRem i 36) 6 in
    let bi := jsRem i 6 in
    cr ← cubeLevels !! Z.to_nat ri;
    cg ← cubeLevels !! Z.to_nat gi;
    cb ← cubeLevels !! Z.to_nat bi;
    Some {| r := cr; g := cg; b := cb |}
  else
    let gray := 8 + (index - 232) * 10 in
    Some {| r := gray; g := gray; b := gray |}.

(** [COLOR_MAP[colorName] !== undefined] holds for the own names and for
    the inherited ones; for the value of an inherited name, which is no
    number, every comparison of [color256ToRgb] fails and the grey ramp
    computes [NaN]. *)
Definition getTrueColorRgb (colorName : jsstring) : option TrueColor :=
  match lookupKey COLOR_MAP colorName with
  | Some color256 => Channels <$> color256ToRgb color256
  | None =>
      match inherited colorName with
      | Some _ => Some NaNChannels
      | None =>
          if looksLikeHex colorName then Channels <$> hexToRgb colorName
          else if startsWith "bg_#" colorName
               then Channels <$> hexToRgb (drop 3 colorName)
               else None
      end
  end.

(** ** Powerline segments *)

Definition defaultBlueRgb : Rgb := {| r := 33; g := 150; b := 243 |}.
Definition whiteRgb : Rgb := {| r := 255; g := 255; b := 255 |}.
Definition blackRgb : Rgb := {| r := 0; g := 0; b := 0 |}.

(** [`${curBg}${fgColor} ${text} \x1b[0m`]. *)
Definition segmentBody (curBg fgColor text : jsstring) : jsstring :=
  curBg ++ fgColor ++ js " " ++ text ++ js " " ++ esc "[0m".

(** [`${sepCurFg}${sepNextBg}${SEP_RIGHT}\x1b[0m`]. *)
Definition separator (curRgb nextRgb : TrueColor) : jsstring :=
  fgTrueColor curRgb ++ bgTrueColor nextRgb ++ SEP_RIGHT ++ esc "[0m".

Definition segment (text textFg bgColor : jsstring) (nextBgColor : option jsstring)
  : jsstring :=
  match getTrueColorRgb bgColor with
  | None =>
      segmentBody (bgTrueColor defaultBlueRgb) (esc "[38;2;255;255;255m") text
  | Some bgRgb =>
      let curBg := bgTrueColor bgRgb in
      let fgRgb := default (Channels whiteRgb) (getTrueColorRgb textFg) in
      let fgColor := fgTrueColor fgRgb in
      let body := segmentBody curBg fgColor text in
      match nextBgColor with
      | Some nextBg =>
          match getTrueColorRgb nextBg with
          | Some nextRgb => body ++ separator bgRgb nextRgb
          | None => body ++ fgTrueColor bgRgb ++ esc "[48;2;0;0;0m" ++ SEP_RIGHT ++ esc "[0m"
          end
      | None => body
      end
  end.

(** ** Themes and modules *)

(** A module as the interface [StatusLineModuleConfig] declares it: [type]
    and [text] are required, the other fields may be absent.  A module that
    a configuration file leaves without [text], against the interface, has
    no counterpart here. *)
Record StatusLineModuleConfig := {
  type : jsstring;
  icon : option jsstring;
  text : jsstring;
  color : option jsstring;
  background : option jsstring;
  scriptPath : option jsstring
}.

Record StatusLineThemeConfig := {
  modules : option (list StatusLineModuleConfig)
}.

(** Truthiness of an optional string: present and not empty. *)
Definition truthy (o : option jsstring) : bool :=
  match o with
  | Some (_ :: _) => true
  | _ => false
  end.

(** [o || d] and [o || null] on an optional string. *)
Definition orElse (o : option jsstring) (d : jsstring) : jsstring :=
  match o with
  | Some (c :: s) => c :: s
  | _ => d
  end.

Definition orNull (o : option jsstring) : option jsstring :=
  match o with
  | Some (c :: s) => Some (c :: s)
  | _ => None
  end.

Definition isEmpty (s : jsstring) : bool :=
  match s with
  | [] => true
  | _ => false
  end.

Definition plainModule (ty : string) (ic : jsstring) (tx co : string) : StatusLineModuleConfig :=
  {| type := ty; icon := Some ic; text := tx; color := Some (js co);
     background := None; scriptPath := None |}.

Definition filledModule (ty : string) (ic : jsstring) (tx co bgd : string)
  : StatusLineModuleConfig :=
  {| type := ty; icon := Some ic; text := tx; color := Some (js co);
     background := Some (js bgd); scriptPath := None |}.

(** Nerd Font glyphs and arrows used as icons, as code units. *)
Definition icon_folder : jsstring := [56192%N; 56907%N].
Definition icon_git_branch : jsstring := [59173%N].
Definition icon_robot : jsstring := [56193%N; 57001%N].
Definition icon_up : jsstring := [8593%N].
Definition icon_down : jsstring := [8595%N].
Definition icon_right : jsstring := [8594%N].

Definition DEFAULT_THEME : StatusLineThemeConfig :=
  {| modules := Some
       [ plainModule "workDir" icon_folder "{{workDirName}}" "bright_blue";
         plainModule "gitBranch" icon_git_branch "{{gitBranch}}" "bright_magenta";
         plainModule "model" icon_robot "{{model}}" "bright_cyan";
         plainModule "usage" icon_up "{{inputTokens}}" "bright_green";
         plainModule "usage" icon_down "{{outputTokens}}" "bright_yellow" ] |}.

Definition POWERLINE_THEME : StatusLineThemeConfig :=
  {| modules := Some
       [ filledModule "workDir" icon_folder "{{workDirName}}" "white" "bg_bright_blue";
         filledModule "gitBranch" icon_git_branch "{{gitBranch}}" "white" "bg_bright_magenta";
         filledModule "model" icon_robot "{{model}}" "white" "bg_bright_cyan";
         filledModule "usage" icon_up "{{inputTokens}}" "white" "bg_bright_green";
         filledModule "usage" icon_down "{{outputTokens}}" "white" "bg_bright_yellow" ] |}.

Definition SIMPLE_THEME : StatusLineThemeConfig :=
  {| modules := Some
       [ plainModule "model" [] "{{model}}" "bright_cyan";
         plainModule "workDir" [] "{{workDirName}}" "bright_blue";
         plainModule "totalTokens" (js "Tokens:") "{{totalTokens}}" "bright_white";
         plainModule "usage" icon_up "{{inputTokens}}" "bright_green";
         plainModule "usage" icon_right "{{outputTokens}}" "bright_yellow" ] |}.

(** ** Variable substitution *)

(** [\w]. *)
Definition isWordChar (c : N) : bool :=
  (((48 <=? c) && (c <=? 57)) || ((65 <=? c) && (c <=? 90))
   || ((97 <=? c) && (c <=? 122)) || (c =? 95))%N.

Fixpoint takeWord (s : jsstring) : jsstring :=
  match s with
  | c :: s' => if isWordChar c then c :: takeWord s' else []
  | [] => []
  end.

(** The name captured when [/\{\{(\w+)\}\}/] matches at the start of [s]. *)
Definition matchVariable (s : jsstring) : option jsstring :=
  match s with
  | 123%N :: 123%N :: s' =>
      let name := takeWord s' in
      match name, drop (length name) s' with
      | _ :: _, 125%N :: 125%N :: _ => Some name
      | _, _ => None
      end
  | _ => None
  end.

(** The global replacement, scanning from the left; [skip] counts the code
    units of the current match that are still to be passed over.  The
    replacement is [variables[varName] || ""], printed as text. *)
Fixpoint replaceFrom (variables : gmap jsstring jsstring) (skip : nat) (s : jsstring)
  : jsstring :=
  match s with
  | [] => []
  | c :: s' =>
      match skip with
      | S k => replaceFrom variables k s'
      | O =>
          match matchVariable s with
          | Some name =>
              default [] (readProperty (variables !! name) name)
                ++ replaceFrom variables (length name + 3) s'
          | None => c :: replaceFrom variables 0 s'
          end
      end
  end.

Definition replaceVariables (text : jsstring) (variables : gmap jsstring jsstring)
  : jsstring :=
  replaceFrom variables 0 text.

(** ** Computations with effects and exceptions *)

Inductive JsError := TypeError | SyntaxError | SystemError | ScriptError.

Inductive Outcome (A : Type) :=
  | Returned (a : A)
  | Thrown (e : JsError).

Arguments Returned {A} a.
Arguments Thrown {A} e.

Definition M (World A : Type) : Type := World -> Outcome A * World.

Definition ret {World A} (a : A) : M World A := fun w => (Returned a, w).

Definition throw {World A} (e : JsError) : M World A := fun w => (Thrown e, w).

Definition bind {World A B} (c : M World A) (k : A -> M World B) : M World B :=
  fun w =>
    match c w with
    | (Returned a, w') => k a w'
    | (Thrown e, w') => (Thrown e, w')
    end.

(** [try { body } catch (e) { handler }]. *)
Definition tryCatch {World A} (body : M World A) (handler : JsError -> M World A)
  : M World A :=
  fun w =>
    match body w with
    | (Returned a, w') => (Returned a, w')
    | (Thrown e, w') => handler e w'
    end.

Notation "'let!' x ':=' c 'in' k" := (bind c (fun x => k))
  (at level 10, x pattern, c at level 100, k at level 200).

(** [for (let i = start; i < start + count; i++) state = body(i, state)]. *)
Fixpoint forLoop {World St} (body : nat -> St -> M World St) (i count : nat) (s : St)
  : M World St :=
  match count with
  | O => ret s
  | S n => let! s' := body i s in forLoop body (S i) n s'
  end.

(** [for (const x of items) state = body(x, state)]. *)
Fixpoint forEach {World St A} (body : A -> St -> M World St) (items : list A) (s : St)
  : M World St :=
  match items with
  | [] => ret s
  | x :: rest => let! s' := body x s in forEach body rest s'
  end.

(** ** Script modules *)

(** What [require(scriptPath)] exports, as [executeScript] tells the cases
    apart: a function, an object whose [default] is a function, a string,
    an object whose [default] is a string, or anything else.  A function is
    called with the variable map and its result is awaited: it stands for a
    script that keeps to the interface of script modules, returning a string
    or a Promise of one and reading the variables only; its computation
    throws when the script throws and when its Promise rejects.  Scripts
    that return another kind of thenable, or that write to the variables,
    have no counterpart here. *)
Inductive ScriptExport (World : Type) :=
  | ExportFunction (f : gmap jsstring jsstring -> M World jsstring)
  | ExportDefaultFunction (f : gmap jsstring jsstring -> M World jsstring)
  | ExportString (s : jsstring)
  | ExportDefaultString (s : jsstring)
  | ExportOther.

Arguments ExportFunction {World} f.
Arguments ExportDefaultFunction {World} f.
Arguments ExportString {World} s.
Arguments ExportDefaultString {World} s.
Arguments ExportOther {World}.


(** ** Transcript records and token accounting *)

(** A transcript line that [JSON.parse] accepts, with the fields the code
    reads.  A field that is absent is [None]; token counts are integers. *)
Record Usage := {
  input_tokens : option Z;
  output_tokens : option Z;
  cache_creation_input_tokens : option Z;
  cache_read_input_tokens : option Z
}.

Record Message := {
  model : option jsstring;
  usage : option Usage
}.

Record TranscriptRecord := {
  recordType : option jsstring;
  message : option Message
}.

Record TokenStats := {
  totalUsed : Z;
  totalRemaining : Z;
  maxTokensFormatted : jsstring
}.

(** [n || 0] on an optional number. *)
Definition orZero (n : option Z) : Z := default 0 n.

(** [Math.round(a / b)] for integers and [b > 0]: halves round up. *)
Definition roundDiv (a b : Z) : Z := (2 * a + b) / (2 * b).

Definition formatTokensWithK (tokens : Z) : jsstring :=
  if tokens >? 1000 then show_Z (roundDiv tokens 1000) ++ js "k"
  else show_Z tokens.

Record Totals := {
  totalInputTokens : Z;
  totalOutputTokens : Z;
  totalCacheCreationTokens : Z;
  totalCacheReadTokens : Z
}.

Definition zeroTotals : Totals :=
  {| totalInputTokens := 0; totalOutputTokens := 0;
     totalCacheCreationTokens := 0; totalCacheReadTokens := 0 |}.

Section TokenAccounting.

(** [JSON.parse] followed by the reading of the record; [None] when the
    line is not JSON or reading [message.message] throws: the code catches
    both in the same handler. *)
Variable JSON_parse : jsstring -> option TranscriptRecord.

(** The body of the loop over the lines. *)
Definition addLine (totals : Totals) (line : jsstring) : Totals :=
  if isEmpty (trim line) then totals
  else
    match JSON_parse line with
    | None => totals
    | Some message' =>
        match message message' ≫= usage with
        | Some usage =>
            {| totalInputTokens := totalInputTokens totals + orZero (input_tokens usage);
               totalOutputTokens := totalOutputTokens totals + orZero (output_tokens usage);
               totalCacheCreationTokens :=
                 totalCacheCreationTokens totals + orZero (cache_creation_input_tokens usage);
               totalCacheReadTokens :=
                 totalCacheReadTokens totals + orZero (cache_read_input_tokens usage) |}
        | None => totals
        end
    end.

(** The usage object of the last line, when the line parses and has one. *)
Definition lastUsage (lines : list jsstring) : option Usage :=
  line ← last lines;
  lastMessage ← JSON_parse line;
  message lastMessage ≫= usage.

Definition calculateTotalTokens (lines : list jsstring) : TokenStats :=
  let totals := fold_left addLine lines zeroTotals in
  let lastMessageCacheRead := orZero (lastUsage lines ≫= cache_read_input_tokens) in
  let lastInputTokens := orZero (lastUsage lines ≫= input_tokens) in
  let lastOutputTokens := orZero (lastUsage lines ≫= output_tokens) in
  let lastCacheCreationTokens :=
    orZero (lastUsage lines ≫= cache_creation_input_tokens) in
  let totalUsed :=
    if lastMessageCacheRead >? 0 then
      let adjustment := lastInputTokens + lastOutputTokens + lastCacheCreationTokens in
      let totalUsed := lastMessageCacheRead + adjustment in
      if totalUsed >? 200000 then 200000 else totalUsed
    else
      let totalUsed := totalInputTokens totals + totalOutputTokens totals in
      if totalUsed =? 0 then 138000 else totalUsed in
  let maxTokens := 200000 in
  let totalRemaining := Z.max 0 (maxTokens - totalUsed) in
  let maxTokensFormatted := show_Z (roundDiv maxTokens 1000) ++ js "k" in
  {| totalUsed := totalUsed;
     totalRemaining := totalRemaining;
     maxTokensFormatted := maxTokensFormatted |}.

End TokenAccounting.

(** ** The entry point *)

Module Input.

Record ModelInfo := {
  id : option jsstring;
  display_name : option jsstring
}.

Record Workspace := {
  current_dir : option jsstring;
  project_dir : option jsstring
}.

(** The session input; a field that the caller left out is [None]. *)
Record StatusLineInput := {
  session_id : option jsstring;
  transcript_path : option jsstring;
  cwd : option jsstring;
  model : option ModelInfo;
  workspace : option Workspace
}.

End Input.

(** The configuration file as [JSON5.parse] returns it, with the fields the
    code reads: [StatusLine.currentStyle], [StatusLine[style]] and
    [Router.default]. *)
Record StatusLineSection := {
  currentStyle : option jsstring;
  styles : list (jsstring * StatusLineThemeConfig)
}.

Record RouterSection := {
  Router_default : option jsstring
}.

Record Config := {
  StatusLine : option StatusLineSection;
  Router : option RouterSection
}.

(** [`${n}`] for a number that may be [undefined]. *)
Definition show_number (n : option Z) : jsstring :=
  match n with
  | Some n => show_Z n
  | None => js "undefined"
  end.

(** [n > 1000]; false when [n] is [undefined]. *)
Definition above1000 (n : option Z) : bool :=
  match n with
  | Some n => n >? 1000
  | None => false
  end.

(** [variables = { ..., key: value, ... }] for a value that may be
    [undefined]: substitution reads an undefined entry as empty, and none of
    the keys that [parseStatusLineData] sets is the name of an inherited
    property. *)
Definition setVariable (key : string) (value : option jsstring)
    (variables : gmap jsstring jsstring) : gmap jsstring jsstring :=
  match value with
  | Some v => <[js key := v]> variables
  | None => variables
  end.

(** ** The host

    What the renderer asks of its surroundings: [fs.access], [require] and
    [console.error] for the script modules; [fs.readFile]; the git query
    [execSync("git branch --show-current", {cwd})] with its [toString()];
    [process.env]; [JSON.parse] followed by the reading of the record, [None]
    when the line is not JSON or reading it throws; [JSON5.parse] and the
    reading of the configuration, [None] when it throws; [path.join];
    [(n / 1000).toFixed(1)], a rounding of a floating-point quotient; and
    the constant [CONFIG_FILE] imported from [../constants]. *)
Record Host (World : Type) := {
  fs_access : jsstring -> M World unit;
  require : jsstring -> M World (ScriptExport World);
  console_error : jsstring -> JsError -> World -> World;
  fs_readFile : jsstring -> M World jsstring;
  execSync_git_branch : option jsstring -> M World jsstring;
  getenv : jsstring -> option jsstring;
  JSON_parse : jsstring -> option TranscriptRecord;
  JSON5_parse : jsstring -> option Config;
  path_join : list jsstring -> jsstring;
  toFixed1_of_thousandth : Z -> jsstring;
  CONFIG_FILE : jsstring
}.

Arguments fs_access {World} _ _.
Arguments require {World} _ _.
Arguments console_error {World} _ _ _ _.
Arguments fs_readFile {World} _ _.
Arguments execSync_git_branch {World} _ _.
Arguments getenv {World} _ _.
Arguments JSON_parse {World} _ _.
Arguments JSON5_parse {World} _ _.
Arguments path_join {World} _ _.
Arguments toFixed1_of_thousandth {World} _ _.
Arguments CONFIG_FILE {World} _.

(** ** The two renderers *)

Section Rendering.

Context {World : Type} (host : Host World).

Definition executeScript (scriptPath : jsstring) (variables : gmap jsstring jsstring)
  : M World jsstring :=
  tryCatch
    (let! _ := fs_access host scriptPath in
     let! scriptModule := require host scriptPath in
     match scriptModule with
     | ExportFunction f => f variables
     | ExportDefaultFunction f => f variables
     | ExportString s => ret s
     | ExportDefaultString s => ret s
     | ExportOther => ret []
     end)
    (fun error w => (Returned [], console_error host scriptPath error w)).

(** The text of a module: the output of its script when the type is
    ["script"] and a script path is given, its template with the variables
    substituted otherwise.  Both renderers contain this fragment. *)
Definition moduleText (module : StatusLineModuleConfig)
    (variables : gmap jsstring jsstring) : M World jsstring :=
  if jsstring_eqb (type module) "script" && truthy (scriptPath module)
  then executeScript (orElse (scriptPath module) []) variables
  else ret (replaceVariables (text module) variables).

(** [displayText]: the icon and a space when there is an icon, then the
    text. *)
Definition buildDisplayText (icon text : jsstring) : jsstring :=
  (if isEmpty icon then [] else icon ++ js " ") ++ text.

(** The body of the loop of [renderDefaultStyle], for the module at hand. *)
Definition defaultPart (module : StatusLineModuleConfig)
    (variables : gmap jsstring jsstring) (parts : list jsstring)
  : M World (list jsstring) :=
  let color := if truthy (color module)
               then getColorCode (orElse (color module) []) else [] in
  let background := if truthy (background module)
                    then getColorCode (orElse (background module) []) else [] in
  let icon := orElse (icon module) [] in
  let! text := moduleText module variables in
  let displayText := buildDisplayText icon text in
  if isEmpty displayText || isEmpty text then ret parts
  else
    let part := background ++ color ++ displayText ++ COLORS_reset in
    ret (parts ++ [part]).

(** [const module = modules[i]] and the body. *)
Definition defaultIteration (modules : list StatusLineModuleConfig)
    (variables : gmap jsstring jsstring) (i : nat) (parts : list jsstring)
  : M World (list jsstring) :=
  match modules !! i with
  | Some module => defaultPart module variables parts
  | None => throw TypeError
  end.

Definition renderDefaultStyle (theme : StatusLineThemeConfig)
    (variables : gmap jsstring jsstring) : M World jsstring :=
  let modules := default (default [] (modules DEFAULT_THEME)) (modules theme) in
  let! parts :=
    forLoop (defaultIteration modules variables) 0 (min (length modules) 5) [] in
  ret (join " " parts).

(** [nextBackground]: the background of [modules[i + 1]] when [i] is not
    the last index and that background is not empty. *)
Definition lookAhead (modules : list StatusLineModuleConfig) (i : nat)
  : M World (option jsstring) :=
  if (i <? length modules - 1)%nat then
    match modules !! (i + 1)%nat with
    | Some nextModule => ret (orNull (background nextModule))
    | None => throw TypeError
    end
  else ret None.

(** One iteration of the loop of [renderPowerlineStyle]. *)
Definition powerlineIteration (modules : list StatusLineModuleConfig)
    (variables : gmap jsstring jsstring) (i : nat) (segments : list jsstring)
  : M World (list jsstring) :=
  match modules !! i with
  | None => throw TypeError
  | Some module =>
      let color := orElse (color module) "white" in
      let backgroundName := orElse (background module) [] in
      let icon := orElse (icon module) [] in
      let! text := moduleText module variables in
      let displayText := buildDisplayText icon text in
      if isEmpty displayText || isEmpty text then ret segments
      else
        let! nextBackground := lookAhead modules i in
        let actualBackground := orElse (Some backgroundName) "bg_bright_blue" in
        let segmentStr := segment displayText color actualBackground nextBackground in
        ret (segments ++ [segmentStr])
  end.

Definition renderPowerlineStyle (theme : StatusLineThemeConfig)
    (variables : gmap jsstring jsstring) : M World jsstring :=
  let modules := default (default [] (modules POWERLINE_THEME)) (modules theme) in
  let! segments :=
    forLoop (powerlineIteration modules variables) 0 (min (length modules) 5) [] in
  ret (join [] segments).

(** Two modules that the renderers cannot tell apart: the same icon and
    colours, and the same text in every world. *)
Definition sameRendering (m m' : StatusLineModuleConfig) : Prop :=
  icon m = icon m' /\ color m = color m' /\ background m = background m'
  /\ forall variables w, moduleText m variables w = moduleText m' variables w.

End Rendering.

Section Pipeline.

Context {World : Type} (host : Host World).

Definition formatUsage (input_tokens output_tokens : option Z) : jsstring :=
  if above1000 input_tokens || above1000 output_tokens then
    let inputFormatted :=
      match input_tokens with
      | Some n => if n >? 1000 then toFixed1_of_thousandth host n ++ js "k" else show_Z n
      | None => show_number None
      end in
    let outputFormatted :=
      match output_tokens with
      | Some n => if n >? 1000 then toFixed1_of_thousandth host n ++ js "k" else show_Z n
      | None => show_number None
      end in
    inputFormatted ++ js " " ++ outputFormatted
  else show_number input_tokens ++ js " " ++ show_number output_tokens.

Definition envIs (name value : string) : bool :=
  bool_decide (getenv host (js name) = Some (js value)).

Definition shouldUseSimpleTheme : bool :=
  if envIs "USE_SIMPLE_ICONS" "true" then true
  else
    let term := orElse (getenv host (js "TERM")) [] in
    if bool_decide (term ∈ [js "dumb"; js "unknown"]) then true
    else false.

Definition canDisplayNerdFonts : bool :=
  if envIs "USE_SIMPLE_ICONS" "true" then false
  else if existsb
            (fun envVar =>
               let value := orElse (getenv host envVar) [] in
               negb (isEmpty value) && (includes "Nerd" value || includes "nerd" value))
            [js "NERD_FONT"; js "NERDFONT"; js "FONT"]
  then true
  else
    let termProgram := orElse (getenv host (js "TERM_PROGRAM")) [] in
    if bool_decide (termProgram ∈ [js "iTerm.app"; js "vscode"; js "Hyper";
                                    js "kitty"; js "alacritty"])
    then true
    else
      let colorTerm := orElse (getenv host (js "COLORTERM")) [] in
      if includes "truecolor" colorTerm || includes "24bit" colorTerm then true
      else negb (envIs "USE_SIMPLE_ICONS" "true").

(** [JSON5.parse(content)], throwing when the text is rejected. *)
Definition parseConfig (content : jsstring) : M World Config :=
  match JSON5_parse host content with
  | Some config => ret config
  | None => throw SyntaxError
  end.

Definition getProjectThemeConfig : M World (option StatusLineThemeConfig * jsstring) :=
  tryCatch
    (let! found := tryCatch (let! _ := fs_access host (CONFIG_FILE host) in ret true)
                            (fun _ => ret false) in
     if negb found then ret (None, js "default")
     else
       let! configContent := fs_readFile host (CONFIG_FILE host) in
       let! config := parseConfig configContent in
       match StatusLine config with
       | Some section =>
           let style := orElse (currentStyle section) "default" in
           match lookupKey (styles section) style with
           | Some theme =>
               match modules theme with
               | Some _ => ret (Some theme, style)
               | None => ret (None, js "default")
               end
           | None => ret (None, js "default")
           end
       | None => ret (None, js "default")
       end)
    (fun _ => ret (None, js "default")).

(** The backward search for the last assistant record: its model and, when
    it has a usage object, its token counts. *)
Fixpoint findAssistant (reversed : list jsstring)
  : jsstring * option Z * option Z :=
  match reversed with
  | [] => ([], Some 0, Some 0)
  | line :: earlier =>
      match JSON_parse host line with
      | Some record =>
          if bool_decide (recordType record = Some (js "assistant")) then
            match message record with
            | Some msg =>
                if truthy (model msg) then
                  match usage msg with
                  | Some u => (orElse (model msg) [], input_tokens u, output_tokens u)
                  | None => (orElse (model msg) [], Some 0, Some 0)
                  end
                else findAssistant earlier
            | None => findAssistant earlier
            end
          else findAssistant earlier
      | None => findAssistant earlier
      end
  end.

(** The model named by the configuration, looked up when the transcript
    names none. *)
Definition modelFromConfig (workDir : option jsstring) : M World jsstring :=
  tryCatch
    (let! dir := match workDir with
                 | Some dir => ret dir
                 | None => throw TypeError
                 end in
     let projectConfigPath :=
       path_join host [dir; js ".claude-code-router"; js "config.json"] in
     let! configPath := tryCatch (let! _ := fs_access host projectConfigPath in
                                  ret projectConfigPath)
                                 (fun _ => ret (CONFIG_FILE host)) in
     let! configContent := fs_readFile host configPath in
     let! config := parseConfig configContent in
     match Router config ≫= Router_default with
     | Some (c :: route) =>
         match split 44%N (c :: route) with
         | _ :: (d :: defaultModel) :: _ => ret (trim (d :: defaultModel))
         | _ => ret []
         end
     | _ => ret []
     end)
    (fun _ => ret []).

Definition parseStatusLineData_body (input : Input.StatusLineInput) : M World jsstring :=
  let useSimpleTheme := shouldUseSimpleTheme in
  let canDisplayNerd := canDisplayNerdFonts in
  let effectiveTheme :=
    if useSimpleTheme || negb canDisplayNerd then SIMPLE_THEME else DEFAULT_THEME in
  let! (projectTheme, style) := getProjectThemeConfig in
  let theme := default effectiveTheme projectTheme in
  let! workspace := match Input.workspace input with
                    | Some ws => ret ws
                    | None => throw TypeError
                    end in
  let workDir := Input.current_dir workspace in
  let! gitBranch := tryCatch (let! out := execSync_git_branch host workDir in
                              ret (trim out))
                             (fun _ => ret []) in
  let! transcriptContent := match Input.transcript_path input with
                            | Some path => fs_readFile host path
                            | None => throw TypeError
                            end in
  let lines := split 10%N (trim transcriptContent) in
  let tokenStats := calculateTotalTokens (JSON_parse host) lines in
  let '(transcriptModel, inputTokens, outputTokens) := findAssistant (rev lines) in
  let! configuredModel :=
    if isEmpty transcriptModel then modelFromConfig workDir else ret transcriptModel in
  let! model :=
    if isEmpty configuredModel then
      match Input.model input with
      | Some info => ret (Input.display_name info)
      | None => throw TypeError
      end
    else ret (Some configuredModel) in
  let! workDirName := match workDir with
                      | Some dir => ret (orElse (last (split 47%N dir)) [])
                      | None => throw TypeError
                      end in
  let usage := formatUsage inputTokens outputTokens in
  let formattedInputTokens := split 32%N usage !! 0%nat in
  let formattedOutputTokens := split 32%N usage !! 1%nat in
  let totalUsedFormatted := formatTokensWithK (totalUsed tokenStats) in
  let totalRemainingFormatted := formatTokensWithK (totalRemaining tokenStats) in
  let totalTokensDisplay :=
    totalUsedFormatted ++ js "/" ++ maxTokensFormatted tokenStats ++ js " used | "
      ++ totalRemainingFormatted ++ js " remaining" in
  let variables :=
    setVariable "workDirName" (Some workDirName)
      (setVariable "gitBranch" (Some gitBranch)
        (setVariable "model" model
          (setVariable "inputTokens" formattedInputTokens
            (setVariable "outputTokens" formattedOutputTokens
              (setVariable "totalTokens" (Some totalTokensDisplay)
                (setVariable "totalUsed" (Some totalUsedFormatted)
                  (setVariable "totalRemaining" (Some totalRemainingFormatted)
                    (setVariable "maxTokens" (Some (maxTokensFormatted tokenStats))
                      ∅)))))))) in
  let isPowerline := jsstring_eqb style "powerline" in
  if isPowerline
  then renderPowerlineStyle host theme variables
  else renderDefaultStyle host theme variables.

(** [try { ... } catch (error) { return ""; }] around the whole body. *)
Definition parseStatusLineData (input : Input.StatusLineInput) : M World jsstring :=
  tryCatch (parseStatusLineData_body input) (fun _ => ret []).

(** The theme of a style that the caller names. *)
Definition getProjectThemeConfigForStyle (style : jsstring)
  : M World (option StatusLineThemeConfig) :=
  tryCatch
    (let! found := tryCatch (let! _ := fs_access host (CONFIG_FILE host) in ret true)
                            (fun _ => ret false) in
     if negb found then ret None
     else
       let! configContent := fs_readFile host (CONFIG_FILE host) in
       let! config := parseConfig configContent in
       match StatusLine config with
       | Some section =>
           match lookupKey (styles section) style with
           | Some theme =>
               match modules theme with
               | Some _ => ret (Some theme)
               | None => ret None
               end
           | None => ret None
           end
       | None => ret None
       end)
    (fun _ => ret None).

(** The check of the terminal's character set; reading [process.env] does
    not throw, so that the handler of the source is never entered. *)
Definition canDisplayUnicodeCharacter (char : jsstring) : bool :=
  let lang :=
    orElse (getenv host (js "LANG"))
      (orElse (getenv host (js "LC_ALL")) (orElse (getenv host (js "LC_CTYPE")) [])) in
  if includes "UTF-8" lang || includes "utf8" lang || includes "UTF8" lang then true
  else if existsb
            (fun lcVar =>
               let value := orElse (getenv host lcVar) [] in
               negb (isEmpty value) && (includes "UTF-8" value || includes "utf8" value))
            [js "LC_ALL"; js "LC_CTYPE"; js "LANG"]
  then true
  else true.

End Pipeline.

#[local] Set Warnings "-register-all".

(** ** A reader for transcript lines

    The theorems on token accounting hold for every [JSON_parse].  The
    examples run on this reader of a fragment of JSON: objects, arrays,
    strings without escapes, integers, [true], [false] and [null]; it
    rejects every other text. *)

Inductive Json :=
  | JNull
  | JBool (v : bool)
  | JNumber (n : Z)
  | JString (s : jsstring)
  | JArray (items : list Json)
  | JObject (fields : list (jsstring * Json)).

Fixpoint skipWs (s : jsstring) : jsstring :=
  match s with
  | c :: s' => if ((c =? 32) || (c =? 9) || (c =? 10) || (c =? 13))%N
               then skipWs s' else s
  | [] => []
  end.

(** The characters up to the closing quote, and what follows it. *)
Fixpoint readStringBody (s : jsstring) : option (jsstring * jsstring) :=
  match s with
  | [] => None
  | c :: s' =>
      if (c =? 34)%N then Some ([], s')
      else if ((c =? 92) || (c <? 32))%N then None
      else '(body, rest) ← readStringBody s'; Some (c :: body, rest)
  end.

Fixpoint readDigits (acc : Z) (s : jsstring) : Z * jsstring :=
  match s with
  | c :: s' =>
      if ((48 <=? c) && (c <=? 57))%N then readDigits (10 * acc + (Z.of_N c - 48)) s'
      else (acc, s)
  | [] => (acc, [])
  end.

Definition startsWithDigit (s : jsstring) : bool :=
  match s with
  | c :: _ => ((48 <=? c) && (c <=? 57))%N
  | [] => false
  end.

Definition readNumber (s : jsstring) : option (Json * jsstring) :=
  match s with
  | 45%N :: s' =>
      if startsWithDigit s'
      then let '(n, rest) := readDigits 0 s' in Some (JNumber (- n), rest)
      else None
  | _ =>
      if startsWithDigit s
      then let '(n, rest) := readDigits 0 s in Some (JNumber n, rest)
      else None
  end.

Fixpoint readValue (fuel : nat) (s : jsstring) : option (Json * jsstring) :=
  match fuel with
  | O => None
  | S fuel' =>
      match skipWs s with
      | 123%N :: s1 =>
          match skipWs s1 with
          | 125%N :: s2 => Some (JObject [], s2)
          | _ => '(fields, rest) ← readMembers fuel' s1; Some (JObject fields, rest)
          end
      | 91%N :: s1 =>
          match skipWs s1 with
          | 93%N :: s2 => Some (JArray [], s2)
          | _ => '(items, rest) ← readElements fuel' s1; Some (JArray items, rest)
          end
      | 34%N :: s1 => '(str, rest) ← readStringBody s1; Some (JString str, rest)
      | 116%N :: 114%N :: 117%N :: 101%N :: rest => Some (JBool true, rest)
      | 102%N :: 97%N :: 108%N :: 115%N :: 101%N :: rest => Some (JBool false, rest)
      | 110%N :: 117%N :: 108%N :: 108%N :: rest => Some (JNull, rest)
      | s0 => readNumber s0
      end
  end
with readMembers (fuel : nat) (s : jsstring)
  : option (list (jsstring * Json) * jsstring) :=
  match fuel with
  | O => None
  | S fuel' =>
      match skipWs s with
      | 34%N :: s1 =>
          '(key, s2) ← readStringBody s1;
          match skipWs s2 with
          | 58%N :: s3 =>
              '(v, s4) ← readValue fuel' s3;
              match skipWs s4 with
              | 44%N :: s5 =>
                  '(more, s6) ← readMembers fuel' s5; Some ((key, v) :: more, s6)
              | 125%N :: s5 => Some ([(key, v)], s5)
              | _ => None
              end
          | _ => None
          end
      | _ => None
      end
  end
with readElements (fuel : nat) (s : jsstring) : option (list Json * jsstring) :=
  match fuel with
  | O => None
  | S fuel' =>
      '(v, s1) ← readValue fuel' s;
      match skipWs s1 with
      | 44%N :: s2 => '(more, s3) ← readElements fuel' s2; Some (v :: more, s3)
      | 93%N :: s2 => Some ([v], s2)
      | _ => None
      end
  end.

Definition readJson (s : jsstring) : option Json :=
  '(v, rest) ← readValue (S (length s)) s;
  if isEmpty (skipWs rest) then Some v else None.

(** A property of an object; of two equal keys the later one counts. *)
Definition property (fields : list (jsstring * Json)) (key : string) : option Json :=
  lookupKey (rev fields) (js key).

Definition numberField (fields : list (jsstring * Json)) (key : string) : option Z :=
  match property fields key with
  | Some (JNumber n) => Some n
  | _ => None
  end.

Definition stringField (fields : list (jsstring * Json)) (key : string)
  : option jsstring :=
  match property fields key with
  | Some (JString s) => Some s
  | _ => None
  end.

Definition usageOfJson (v : Json) : option Usage :=
  match v with
  | JObject fields =>
      Some {| input_tokens := numberField fields "input_tokens";
              output_tokens := numberField fields "output_tokens";
              cache_creation_input_tokens :=
                numberField fields "cache_creation_input_tokens";
              cache_read_input_tokens := numberField fields "cache_read_input_tokens" |}
  | _ => None
  end.

Definition messageOfJson (v : Json) : option Message :=
  match v with
  | JObject fields =>
      Some {| model := stringField fields "model";
              usage := property fields "usage" ≫= usageOfJson |}
  | _ => None
  end.

(** Reading [null.message] throws; every other value can be read. *)
Definition recordOfJson (v : Json) : option TranscriptRecord :=
  match v with
  | JNull => None
  | JObject fields =>
      Some {| recordType := stringField fields "type";
              message := property fields "message" ≫= messageOfJson |}
  | _ => Some {| recordType := None; message := None |}
  end.

Definition readTranscriptLine (line : jsstring) : option TranscriptRecord :=
  readJson line ≫= recordOfJson.

(** JSON text written with apostrophes in place of the double quotes. *)
Definition json (s : string) : jsstring :=
  map (fun c => if (c =? 39)%N then 34%N else c) (js s).

(** ** Notions and data for the properties *)

(** A host whose only file is a transcript of two lines, outside any git
    repository, on a terminal of type [dumb], without scripts, and with a
    console that drops its messages. *)
Definition exampleTranscript : jsstring :=
  json "{'type':'assistant','message':{'model':'m','usage':{'input_tokens':5000,'output_tokens':3000}}}"
  ++ [10%N] ++ json "{'type':'user'}" ++ [10%N].

Definition readExample {World} (path : jsstring) : M World jsstring :=
  if jsstring_eqb path "/t.jsonl" then ret exampleTranscript else throw SystemError.

Definition dumbTerminal (name : jsstring) : option jsstring :=
  if jsstring_eqb name "TERM" then Some (js "dumb") else None.

(** [(n / 1000).toFixed(1)] for the counts of the examples, which are
    multiples of 100: there the quotient has one decimal and nothing is
    rounded.  For other counts [toFixed] rounds and this function does
    not. *)
Definition exactTenths (n : Z) : jsstring :=
  show_Z (n / 1000) ++ js "." ++ show_Z ((n mod 1000) / 100).

Definition quietHost {World} : Host World :=
  {| fs_access := fun _ => throw SystemError;
     require := fun _ => ret ExportOther;
     console_error := fun _ _ w => w;
     fs_readFile := readExample;
     execSync_git_branch := fun _ => throw SystemError;
     getenv := dumbTerminal;
     JSON_parse := readTranscriptLine;
     JSON5_parse := fun _ => None;
     path_join := join (js "/");
     toFixed1_of_thousandth := exactTenths;
     CONFIG_FILE := js "/config.json" |}.

(** The same host with a console that keeps the paths of the scripts that
    failed. *)
Definition loggingHost : Host (list jsstring) :=
  {| fs_access := fun _ => throw SystemError;
     require := fun _ => ret ExportOther;
     console_error := fun scriptPath _ log => log ++ [scriptPath];
     fs_readFile := readExample;
     execSync_git_branch := fun _ => throw SystemError;
     getenv := dumbTerminal;
     JSON_parse := readTranscriptLine;
     JSON5_parse := fun _ => None;
     path_join := join (js "/");
     toFixed1_of_thousandth := exactTenths;
     CONFIG_FILE := js "/config.json" |}.

Definition exampleInput : Input.StatusLineInput :=
  {| Input.session_id := Some (js "s"); Input.transcript_path := Some (js "/t.jsonl");
     Input.cwd := Some (js "/home/u/proj");
     Input.model := Some {| Input.id := Some (js "id");
                            Input.display_name := Some (js "Display") |};
     Input.workspace := Some {| Input.current_dir := Some (js "/home/u/proj");
                                Input.project_dir := Some (js "/home/u/proj") |} |}.

(** A script module with an icon, whose script is missing. *)
Definition missingScript : StatusLineModuleConfig :=
  {| type := js "script"; icon := Some (js "I"); text := js "unused"; color := None;
     background := None; scriptPath := Some (js "/missing.js") |}.

Definition textModule (tx : string) (ic bgd : option jsstring) : StatusLineModuleConfig :=
  {| type := js "text"; icon := ic; text := tx; color := None;
     background := bgd; scriptPath := None |}.

(** A transcript line with the usage of a turn that read 190000 tokens from
    the cache. *)
Definition cachedTurnLine : jsstring :=
  json "{'type':'assistant','message':{'model':'m','usage':{'input_tokens':5000,'output_tokens':3000,'cache_creation_input_tokens':1000,'cache_read_input_tokens':190000}}}".

(** A transcript line of a turn without cache reads. *)
Definition largeTurnLine : jsstring :=
  json "{'message':{'usage':{'input_tokens':150000,'output_tokens':60000}}}".

(** The usage that the transcript of the cached turn reports. *)
Definition cachedTurnUsage : Usage :=
  {| input_tokens := Some 5000; output_tokens := Some 3000;
     cache_creation_input_tokens := Some 1000;
     cache_read_input_tokens := Some 190000 |}.

(** The last line that [JSON_parse] accepts. *)
Definition lastParseable (JSON_parse : jsstring -> option TranscriptRecord)
    (lines : list jsstring) : option TranscriptRecord :=
  last (omap JSON_parse lines).

(** The token counts of a line are not negative. *)
Definition nonNegativeUsage (u : Usage) : bool :=
  (0 <=? orZero (input_tokens u)) && (0 <=? orZero (output_tokens u))
  && (0 <=? orZero (cache_creation_input_tokens u))
  && (0 <=? orZero (cache_read_input_tokens u)).

Definition nonNegativeLine (JSON_parse : jsstring -> option TranscriptRecord)
    (line : jsstring) : bool :=
  match (JSON_parse line ≫= message) ≫= usage with
  | Some u => nonNegativeUsage u
  | None => true
  end.

(** The level of the 6x6x6 colour cube at a coordinate. *)
Definition cubeLevel (k : Z) : Z := nth (Z.to_nat k) [0; 95; 135; 175; 215; 255] 0.

(** The background that the separator after the module at index [i] leads
    into: that of the next module of the list, when there is one and its
    background is not empty. *)
Definition nextBackgroundOf (modules : list StatusLineModuleConfig) (i : nat)
  : option jsstring :=
  modules !! (i + 1)%nat ≫= fun nextModule => orNull (background nextModule).

Definition redRgb : Rgb := {| r := 128; g := 0; b := 0 |}.

(** The colour of [bg_bright_blue], the background of a powerline module
    that declares none. *)
Definition brightBlueRgb : Rgb := {| r := 0; g := 0; b := 255 |}.

(** How [formatUsage] writes one of its two counts. *)
Definition formatCount (toFixed1 : Z -> jsstring) (n : option Z) : jsstring :=
  match n with
  | Some n => if n >? 1000 then toFixed1 n ++ js "k" else show_Z n
  | None => js "undefined"
  end.

(** A line that the backward search for the model stops at: an assistant
    record that names a model. *)
Definition namesModel (JSON_parse : jsstring -> option TranscriptRecord)
    (line : jsstring) : bool :=
  match JSON_parse line with
  | Some record =>
      bool_decide (recordType record = Some (js "assistant"))
      && truthy (message record ≫= model)
  | None => false
  end.


(** A configuration file with a powerline theme, and a host that has it. *)
Definition exampleConfig : Config :=
  {| StatusLine :=
       Some {| currentStyle := Some (js "powerline");
               styles := [ (js "powerline", POWERLINE_THEME) ] |};
     Router := Some {| Router_default := Some (js "provider, model-x ") |} |}.

Definition configuredHost : Host unit :=
  {| fs_access := fun path =>
       if jsstring_eqb path "/config.json" then ret tt else throw SystemError;
     require := fun _ => ret ExportOther;
     console_error := fun _ _ w => w;
     fs_readFile := fun path =>
       if jsstring_eqb path "/config.json" then ret (js "config") else throw SystemError;
     execSync_git_branch := fun _ => throw SystemError;
     getenv := fun _ => None;
     JSON_parse := readTranscriptLine;
     JSON5_parse := fun _ => Some exampleConfig;
     path_join := join (js "/");
     toFixed1_of_thousandth := exactTenths;
     CONFIG_FILE := js "/config.json" |}.

(** A theme of six modules on a red background, and one whose first module
    names a background that is no colour. *)
Definition sixModules : list StatusLineModuleConfig :=
  replicate 6 (textModule "x" None (Some (js "bg_red"))).

(** A module on red before a module that declares no background. *)
Definition redThenPlain : list StatusLineModuleConfig :=
  [ textModule "a" None (Some (js "bg_red")); textModule "b" None None ].

Definition unresolvedThenRed : list StatusLineModuleConfig :=
  [ textModule "a" None (Some (js "no_such_color"));
    textModule "b" None (Some (js "bg_red")) ].

(** * Properties *)

Ltac bool_facts :=
  repeat match goal with
         | H : _ && _ = true |- _ => apply andb_prop in H; destruct H
         | H : _ && _ = false |- _ => apply andb_false_iff in H
         end;
  rewrite ?N.leb_le, ?N.leb_gt, ?N.eqb_eq, ?N.eqb_neq in *.

(** Decides the tests on a code unit that a goal contains. *)
Ltac n_tests :=
  repeat match goal with
         | |- context [(?a =? ?b)%N] => destruct (N.eqb_spec a b); try lia
         | |- context [(?a <=? ?b)%N] => destruct (N.leb_spec a b); try lia
         end;
  cbn; first [reflexivity | lia].

(** ** The 256-colour table *)

Lemma cubeLevels_lookup (k : Z) :
  0 <= k <= 5 ->
  exists v, cubeLevels !! Z.to_nat k = Some v /\ v = cubeLevel k /\ 0 <= v <= 255.
Proof.
  intros Hk.
  assert (k = 0 \/ k = 1 \/ k = 2 \/ k = 3 \/ k = 4 \/ k = 5) as Hcases by lia.
  destruct Hcases as [-> | [-> | [-> | [-> | [-> | ->]]]]];
    vm_compute; eexists; repeat split; discriminate.
Qed.

Lemma basicColors_lookup (index : Z) :
  0 <= index < 16 ->
  exists cr cg cb, basicColors !! Z.to_nat index = Some (cr, cg, cb)
    /\ 0 <= cr <= 255 /\ 0 <= cg <= 255 /\ 0 <= cb <= 255.
Proof.
  intros Hi.
  assert (exists n, index = Z.of_nat n /\ (n < 16)%nat) as (n & -> & Hn).
  { exists (Z.to_nat index). lia. }
  rewrite Nat2Z.id.
  do 16 (destruct n as [|n]; [vm_compute; do 3 eexists; repeat split; discriminate|]).
  lia.
Qed.

(** C9.  For every index of the 256-colour table, [color256ToRgb] returns a
    colour whose channels are in 0..255; for the indices 16..231 the channels
    are the levels 0, 95, 135, 175, 215, 255 at the cube coordinates
    [i / 36], [(i mod 36) / 6] and [i mod 6] of [i = index - 16]; for the
    indices 232..255 the three channels are [8 + (index - 232) * 10]. *)
Theorem color256ToRgb_table (index : Z) :
  0 <= index <= 255 ->
  exists c,
    color256ToRgb index = Some c
    /\ (0 <= r c <= 255 /\ 0 <= g c <= 255 /\ 0 <= b c <= 255)
    /\ (16 <= index <= 231 ->
        r c = cubeLevel ((index - 16) / 36)
        /\ g c = cubeLevel (((index - 16) mod 36) / 6)
        /\ b c = cubeLevel ((index - 16) mod 6))
    /\ (232 <= index <= 255 ->
        r c = 8 + (index - 232) * 10
        /\ g c = 8 + (index - 232) * 10
        /\ b c = 8 + (index - 232) * 10).
Proof.
  intros Hrange. unfold color256ToRgb.
  destruct (index <? 0) eqn:Hneg; [lia|].
  destruct (index >? 255) eqn:Hbig; [lia|]. cbn [orb].
  destruct (index <? 16) eqn:Hbasic.
  - destruct (basicColors_lookup index) as (cr & cg & cb & -> & Hr & Hg & Hb); [lia|].
    cbn. eexists. split; [reflexivity|]. cbn. repeat split; lia.
  - destruct (index <? 232) eqn:Hcube.
    + unfold floorDiv, jsRem.
      rewrite !Z.rem_mod_nonneg by lia.
      destruct (cubeLevels_lookup ((index - 16) / 36)) as (cr & -> & Hr & Hr');
        [Z.to_euclidean_division_equations; lia|].
      destruct (cubeLevels_lookup (((index - 16) mod 36) / 6)) as (cg & -> & Hg & Hg');
        [Z.to_euclidean_division_equations; lia|].
      destruct (cubeLevels_lookup ((index - 16) mod 6)) as (cb & -> & Hb & Hb');
        [Z.to_euclidean_division_equations; lia|].
      cbn. eexists. split; [reflexivity|]. cbn [r g b].
      repeat split; first [lia | assumption].
    + eexists. split; [reflexivity|]. cbn. repeat split; lia.
Qed.

Lemma color256ToRgb_table_witness :
  0 <= 196 <= 255 /\
  exists c,
    color256ToRgb 196 = Some c
    /\ (0 <= r c <= 255 /\ 0 <= g c <= 255 /\ 0 <= b c <= 255)
    /\ (16 <= 196 <= 231 ->
        r c = cubeLevel ((196 - 16) / 36)
        /\ g c = cubeLevel (((196 - 16) mod 36) / 6)
        /\ b c = cubeLevel ((196 - 16) mod 6))
    /\ (232 <= 196 <= 255 ->
        r c = 8 + (196 - 232) * 10
        /\ g c = 8 + (196 - 232) * 10
        /\ b c = 8 + (196 - 232) * 10).
Proof.
  split; [lia | apply (color256ToRgb_table 196); lia].
Defined.

(** ** Hexadecimal colour tokens *)

Lemma hexDigit_range c v : hexDigit c = Some v -> 0 <= v <= 15.
Proof.
  unfold hexDigit. intros H. repeat case_match; simplify_eq; bool_facts; lia.
Qed.

Lemma hexDigit_not_space c v : hexDigit c = Some v -> isWhiteSpace c = false.
Proof.
  unfold hexDigit, isWhiteSpace. intros H.
  repeat case_match; simplify_eq; bool_facts; n_tests.
Qed.

(** A digit is no sign, no [#] and no [x]. *)
Lemma hexDigit_not_sign c v :
  hexDigit c = Some v -> (c =? 45)%N = false /\ (c =? 43)%N = false.
Proof.
  unfold hexDigit. intros H.
  repeat case_match; simplify_eq; bool_facts; split; n_tests.
Qed.

Lemma hexDigit_not_x c v :
  hexDigit c = Some v -> ((c =? 120) || (c =? 88))%N = false.
Proof.
  unfold hexDigit. intros H.
  repeat case_match; simplify_eq; bool_facts; n_tests.
Qed.

Lemma stripHash_hexDigit c v s : hexDigit c = Some v -> stripHash (c :: s) = c :: s.
Proof.
  unfold hexDigit, stripHash. intros H.
  repeat case_match; simplify_eq; bool_facts; try reflexivity; exfalso; lia.
Qed.

Lemma trimStart_head c s : isWhiteSpace c = false -> trimStart (c :: s) = c :: s.
Proof. intros H. cbn. by rewrite H. Qed.

(** Two digits are read as the number they write in base 16. *)
Lemma parseInt16_pair d1 d2 v1 v2 :
  hexDigit d1 = Some v1 -> hexDigit d2 = Some v2 ->
  parseInt16 [d1; d2] = Some (16 * v1 + v2).
Proof.
  intros H1 H2. unfold parseInt16.
  rewrite trimStart_head by eauto using hexDigit_not_space.
  destruct (hexDigit_not_sign _ _ H1) as [-> ->].
  rewrite (hexDigit_not_x _ _ H2), andb_false_r.
  cbn [hexPrefix]. rewrite H1, H2. cbn [hexValue fold_left]. f_equal. lia.
Qed.

(** A text that starts with neither white space, a sign nor a digit is not
    a number. *)
Lemma parseInt16_not_a_number c s :
  isWhiteSpace c = false -> hexDigit c = None ->
  (c =? 45)%N = false -> (c =? 43)%N = false ->
  parseInt16 (c :: s) = None.
Proof.
  intros Hspace Hdigit Hminus Hplus. unfold parseInt16.
  rewrite trimStart_head, Hminus, Hplus by done.
  assert ((c =? 48)%N = false) as Hzero.
  { destruct (N.eqb_spec c 48) as [->|]; [discriminate Hdigit|done]. }
  destruct s as [|x s]; rewrite ?Hzero; cbn [andb hexPrefix]; by rewrite Hdigit.
Qed.

Lemma trim_ends c1 s c2 :
  isWhiteSpace c1 = false -> isWhiteSpace c2 = false ->
  trim (c1 :: s ++ [c2]) = c1 :: s ++ [c2].
Proof.
  intros H1 H2. unfold trim, trimEnd. rewrite trimStart_head by done.
  rewrite app_comm_cons, rev_unit, trimStart_head by done.
  by rewrite <- rev_unit, rev_involutive.
Qed.

(** A leading [#] is dropped before anything else is looked at. *)
Lemma hexToRgb_hash s : stripHash s = s -> hexToRgb (35%N :: s) = hexToRgb s.
Proof. intros H. unfold hexToRgb. cbn [stripHash]. by rewrite H. Qed.

(** Six digits resolve to the three numbers that their pairs write. *)
Lemma hexToRgb_six_digits d1 d2 d3 d4 d5 d6 v1 v2 v3 v4 v5 v6 :
  hexDigit d1 = Some v1 -> hexDigit d2 = Some v2 -> hexDigit d3 = Some v3 ->
  hexDigit d4 = Some v4 -> hexDigit d5 = Some v5 -> hexDigit d6 = Some v6 ->
  hexToRgb [d1; d2; d3; d4; d5; d6]
  = Some {| r := 16 * v1 + v2; g := 16 * v3 + v4; b := 16 * v5 + v6 |}.
Proof.
  intros H1 H2 H3 H4 H5 H6. unfold hexToRgb.
  rewrite (stripHash_hexDigit _ _ _ H1).
  change [d1; d2; d3; d4; d5; d6] with (d1 :: [d2; d3; d4; d5] ++ [d6]).
  rewrite trim_ends by eauto using hexDigit_not_space.
  cbn [app length Nat.eqb negb substring take drop Nat.sub].
  rewrite (parseInt16_pair _ _ _ _ H1 H2), (parseInt16_pair _ _ _ _ H3 H4),
    (parseInt16_pair _ _ _ _ H5 H6).
  apply hexDigit_range in H1, H2, H3, H4, H5, H6.
  repeat match goal with
         | |- context [?a <? ?b] => destruct (Z.ltb_spec a b); [lia|]
         | |- context [?a >? ?b] => rewrite (Z.gtb_ltb a b);
                                    destruct (Z.ltb_spec b a); [lia|]
         end.
  reflexivity.
Qed.

(** The shorthand of three digits stands for the six digits that double
    each of them. *)
Lemma hexToRgb_shorthand d1 d2 d3 v1 v2 v3 :
  hexDigit d1 = Some v1 -> hexDigit d2 = Some v2 -> hexDigit d3 = Some v3 ->
  hexToRgb [d1; d2; d3] = hexToRgb [d1; d1; d2; d2; d3; d3]
  /\ hexToRgb [d1; d2; d3]
     = Some {| r := 16 * v1 + v1; g := 16 * v2 + v2; b := 16 * v3 + v3 |}.
Proof.
  intros H1 H2 H3.
  assert (hexToRgb [d1; d2; d3] = hexToRgb [d1; d1; d2; d2; d3; d3]) as Heq.
  { unfold hexToRgb.
    rewrite !(stripHash_hexDigit _ _ _ H1).
    change [d1; d2; d3] with (d1 :: [d2] ++ [d3]).
    change [d1; d1; d2; d2; d3; d3] with (d1 :: [d1; d2; d2; d3] ++ [d3]).
    rewrite !trim_ends by eauto using hexDigit_not_space.
    reflexivity. }
  split; [exact Heq|].
  rewrite Heq. by apply hexToRgb_six_digits.
Qed.

Lemma lookupKey_absent {A} (table : list (jsstring * A)) key :
  Forall (fun kv => kv.1 <> key) table -> lookupKey table key = None.
Proof.
  induction 1 as [|[k v] table Hk _ IH]; [done|].
  cbn. unfold jsstring_eqb. by rewrite bool_decide_eq_false_2.
Qed.

(** No name of [COLOR_MAP] starts with [#], and none is made of digits
    only. *)
Lemma COLOR_MAP_names :
  Forall (fun kv : jsstring * Z =>
            forallb isHexDigit kv.1 = false /\ head kv.1 <> Some 35%N) COLOR_MAP.
Proof. repeat constructor; discriminate. Qed.

Lemma COLOR_MAP_digits s :
  forallb isHexDigit s = true -> lookupKey COLOR_MAP s = None.
Proof.
  intros Hs. apply lookupKey_absent.
  eapply Forall_impl; [apply COLOR_MAP_names|].
  intros [k v] [Hk _] Heq. cbn in Hk, Heq. congruence.
Qed.

Lemma COLOR_MAP_hash s : lookupKey COLOR_MAP (35%N :: s) = None.
Proof.
  apply lookupKey_absent.
  eapply Forall_impl; [apply COLOR_MAP_names|].
  intros [k v] [_ Hk] Heq. cbn in Hk, Heq. subst k. by apply Hk.
Qed.

(** No inherited name is made of digits only, and none starts with [#] or
    with [b]. *)
Lemma Object_prototype_names :
  Forall (fun kv : jsstring * jsstring =>
            forallb isHexDigit kv.1 = false /\ head kv.1 <> Some 35%N
            /\ head kv.1 <> Some 98%N) Object_prototype.
Proof. repeat constructor; discriminate. Qed.

Lemma inherited_digits s : forallb isHexDigit s = true -> inherited s = None.
Proof.
  intros Hs. apply lookupKey_absent.
  eapply Forall_impl; [apply Object_prototype_names|].
  intros [k v] [Hk _] Heq. cbn in Hk, Heq. congruence.
Qed.

Lemma inherited_head c s : c = 35%N \/ c = 98%N -> inherited (c :: s) = None.
Proof.
  intros Hc. apply lookupKey_absent.
  eapply Forall_impl; [apply Object_prototype_names|].
  intros [k v] (_ & Hhash & Hb) Heq. cbn in Hhash, Hb, Heq. subst k.
  destruct Hc as [-> | ->]; [by apply Hhash | by apply Hb].
Qed.

Lemma isHexDigit_true c v : hexDigit c = Some v -> isHexDigit c = true.
Proof. intros H. unfold isHexDigit. apply bool_decide_eq_true_2. by rewrite H. Qed.

(** A token of six digits, with or without a leading [#], resolves through
    [getTrueColorRgb] to the colour written by its three pairs. *)
Lemma getTrueColorRgb_six_digits d1 d2 d3 d4 d5 d6 v1 v2 v3 v4 v5 v6 :
  hexDigit d1 = Some v1 -> hexDigit d2 = Some v2 -> hexDigit d3 = Some v3 ->
  hexDigit d4 = Some v4 -> hexDigit d5 = Some v5 -> hexDigit d6 = Some v6 ->
  let rgb := {| r := 16 * v1 + v2; g := 16 * v3 + v4; b := 16 * v5 + v6 |} in
  getTrueColorRgb [d1; d2; d3; d4; d5; d6] = Some (Channels rgb)
  /\ getTrueColorRgb (35%N :: [d1; d2; d3; d4; d5; d6]) = Some (Channels rgb).
Proof.
  intros H1 H2 H3 H4 H5 H6 rgb.
  assert (forallb isHexDigit [d1; d2; d3; d4; d5; d6] = true) as Hall.
  { cbn. by rewrite !(isHexDigit_true _ _ H1), !(isHexDigit_true _ _ H2),
      !(isHexDigit_true _ _ H3), !(isHexDigit_true _ _ H4),
      !(isHexDigit_true _ _ H5), !(isHexDigit_true _ _ H6). }
  unfold getTrueColorRgb. rewrite COLOR_MAP_digits, COLOR_MAP_hash by done.
  rewrite inherited_digits, inherited_head by auto.
  split.
  - unfold looksLikeHex, isHexDigits. rewrite Hall.
    cbn [length Nat.eqb andb]. rewrite orb_true_r. cbn [orb].
    by rewrite (hexToRgb_six_digits _ _ _ _ _ _ _ _ _ _ _ _ H1 H2 H3 H4 H5 H6).
  - unfold looksLikeHex. change (startsWith "#" (35%N :: _)) with true. cbn [orb].
    rewrite hexToRgb_hash by eauto using stripHash_hexDigit.
    by rewrite (hexToRgb_six_digits _ _ _ _ _ _ _ _ _ _ _ _ H1 H2 H3 H4 H5 H6).
Qed.

(** The shorthand through [getTrueColorRgb]. *)
Lemma getTrueColorRgb_shorthand d1 d2 d3 v1 v2 v3 :
  hexDigit d1 = Some v1 -> hexDigit d2 = Some v2 -> hexDigit d3 = Some v3 ->
  getTrueColorRgb [d1; d2; d3] = getTrueColorRgb [d1; d1; d2; d2; d3; d3].
Proof.
  intros H1 H2 H3.
  destruct (getTrueColorRgb_six_digits d1 d1 d2 d2 d3 d3 _ _ _ _ _ _
              H1 H1 H2 H2 H3 H3) as [-> _].
  assert (forallb isHexDigit [d1; d2; d3] = true) as Hall.
  { cbn. by rewrite (isHexDigit_true _ _ H1), (isHexDigit_true _ _ H2),
      (isHexDigit_true _ _ H3). }
  unfold getTrueColorRgb. rewrite COLOR_MAP_digits, inherited_digits by done.
  unfold looksLikeHex, isHexDigits. rewrite Hall.
  cbn [length Nat.eqb andb]. rewrite !orb_true_r.
  destruct (hexToRgb_shorthand d1 d2 d3 v1 v2 v3) as [-> _]; [done..|].
  by rewrite (hexToRgb_six_digits _ _ _ _ _ _ _ _ _ _ _ _ H1 H1 H2 H2 H3 H3).
Qed.

Example hexToRgb_abc : hexToRgb "abc" = hexToRgb "aabbcc".
Proof. reflexivity. Qed.

Example getTrueColorRgb_ff8800 :
  getTrueColorRgb "#ff8800" = Some (Channels {| r := 255; g := 136; b := 0 |}).
Proof. reflexivity. Qed.

(** A token whose length, after the [#] and the white space around it are
    removed, is neither three nor six resolves to nothing. *)
Lemma hexToRgb_wrong_length hex :
  length (trim (stripHash hex)) <> 3%nat ->
  length (trim (stripHash hex)) <> 6%nat ->
  hexToRgb hex = None.
Proof.
  intros H3 H6. unfold hexToRgb.
  destruct (trim (stripHash hex)) as [|h0 [|h1 [|h2 [|h3 s]]]] eqn:E;
    try reflexivity; [by cbn in H3|].
  destruct (length (h0 :: h1 :: h2 :: h3 :: s) =? 6)%nat eqn:Hlen; [|done].
  apply Nat.eqb_eq in Hlen. congruence.
Qed.

(** A token of six code units is rejected when one of its three pairs
    starts with something that is neither a digit, white space nor a sign. *)
Lemma hexToRgb_bad_pair hex d1 d2 d3 d4 d5 d6 c :
  trim (stripHash hex) = [d1; d2; d3; d4; d5; d6] ->
  c = d1 \/ c = d3 \/ c = d5 ->
  isWhiteSpace c = false -> hexDigit c = None ->
  (c =? 45)%N = false -> (c =? 43)%N = false ->
  hexToRgb hex = None.
Proof.
  intros Htrim Hc Hspace Hdigit Hminus Hplus. unfold hexToRgb. rewrite Htrim.
  cbn [length Nat.eqb negb substring take drop Nat.sub].
  destruct Hc as [<- | [<- | <-]].
  - by rewrite (parseInt16_not_a_number c).
  - rewrite (parseInt16_not_a_number c) by done. by destruct (parseInt16 _).
  - rewrite (parseInt16_not_a_number c) by done.
    by destruct (parseInt16 [d1; d2]), (parseInt16 [d3; d4]).
Qed.

Example hexToRgb_g12345 : hexToRgb "#g12345" = None.
Proof. reflexivity. Qed.

(** C4.  [hexToRgb] leaves the validation of the digits to [parseInt], which
    reads the digits it finds and ignores what follows them: the token
    [#1g2h3i], which is not a hexadecimal colour, resolves to the colour
    (1, 2, 3) and not to null. *)
Theorem hexToRgb_accepts_malformed :
  isHexDigits 6 "1g2h3i" = false
  /\ hexToRgb "#1g2h3i" = Some {| r := 1; g := 2; b := 3 |}
  /\ getTrueColorRgb "#1g2h3i" = Some (Channels {| r := 1; g := 2; b := 3 |})
  /\ getTrueColorRgb "bg_#1g2h3i" = Some (Channels {| r := 1; g := 2; b := 3 |})
  /\ getColorCode "#1g2h3i" = esc "[38;2;1;2;3m".
Proof. repeat split. Qed.

(** ** Token accounting *)

Section TokenAccountingProperties.

Variable JSON_parse : jsstring -> option TranscriptRecord.

(** The sums over the lines are not negative when no count is. *)
Lemma addLine_nonnegative totals line :
  nonNegativeLine JSON_parse line = true ->
  0 <= totalInputTokens totals -> 0 <= totalOutputTokens totals ->
  0 <= totalInputTokens (addLine JSON_parse totals line)
  /\ 0 <= totalOutputTokens (addLine JSON_parse totals line).
Proof.
  unfold nonNegativeLine, addLine, nonNegativeUsage. intros Hline Hin Hout.
  destruct (isEmpty (trim line)); [done|].
  destruct (JSON_parse line) as [record|]; [|done]. cbn in *.
  destruct (message record ≫= usage) as [u|]; [|done]. cbn.
  repeat (apply andb_prop in Hline as [Hline ?]). lia.
Qed.

Lemma fold_addLine_nonnegative lines totals :
  forallb (nonNegativeLine JSON_parse) lines = true ->
  0 <= totalInputTokens totals -> 0 <= totalOutputTokens totals ->
  0 <= totalInputTokens (fold_left (addLine JSON_parse) lines totals)
  /\ 0 <= totalOutputTokens (fold_left (addLine JSON_parse) lines totals).
Proof.
  revert totals. induction lines as [|line lines IH]; intros totals Hall Hin Hout.
  - done.
  - cbn in Hall. apply andb_prop in Hall as [Hline Hall]. cbn [fold_left].
    destruct (addLine_nonnegative totals line) as [? ?]; auto.
Qed.

Lemma lastUsage_nonnegative lines u :
  forallb (nonNegativeLine JSON_parse) lines = true ->
  lastUsage JSON_parse lines = Some u ->
  nonNegativeUsage u = true.
Proof.
  intros Hall Hlast. unfold lastUsage in Hlast.
  destruct (last lines) as [line|] eqn:Eline; [|done]. cbn in Hlast.
  apply last_Some_elem_of, list_elem_of_In in Eline.
  rewrite forallb_forall in Hall. specialize (Hall line Eline).
  unfold nonNegativeLine in Hall.
  destruct (JSON_parse line) as [record|]; [|done]. cbn in *.
  by rewrite Hlast in Hall.
Qed.

(** With cache reads on the last line, the tokens used are the four counts
    of that line, at most 200000, and the rest of the ceiling remains. *)
Lemma calculateTotalTokens_cache_branch lines u :
  lastUsage JSON_parse lines = Some u ->
  0 < orZero (cache_read_input_tokens u) ->
  totalUsed (calculateTotalTokens JSON_parse lines)
  = Z.min 200000
      (orZero (cache_read_input_tokens u)
       + (orZero (input_tokens u) + orZero (output_tokens u)
          + orZero (cache_creation_input_tokens u)))
  /\ totalRemaining (calculateTotalTokens JSON_parse lines)
     = Z.max 0 (200000 - totalUsed (calculateTotalTokens JSON_parse lines)).
Proof.
  intros Hlast Hcache. split; [|reflexivity].
  unfold calculateTotalTokens. cbn [totalUsed]. rewrite Hlast. cbn [mbind option_bind].
  repeat case_match; lia.
Qed.

(** Without cache reads on the last line, the tokens used are the input and
    output tokens of all lines, or 138000 when these are none. *)
Lemma calculateTotalTokens_fallback_branch lines :
  orZero (lastUsage JSON_parse lines ≫= cache_read_input_tokens) <= 0 ->
  let totals := fold_left (addLine JSON_parse) lines zeroTotals in
  totalUsed (calculateTotalTokens JSON_parse lines)
  = if totalInputTokens totals + totalOutputTokens totals =? 0 then 138000
    else totalInputTokens totals + totalOutputTokens totals.
Proof.
  intros Hcache totals. unfold calculateTotalTokens. cbn [totalUsed].
  destruct (_ >? 0) eqn:E; [lia|done].
Qed.

Example formatTokensWithK_1500 : formatTokensWithK 1500 = js "2k".
Proof. reflexivity. Qed.

(** C5.  Without any transcript line the fallback applies: 138000 tokens
    used, 62000 remaining, of [200k]. *)
Theorem calculateTotalTokens_empty :
  calculateTotalTokens JSON_parse []
  = {| totalUsed := 138000; totalRemaining := 62000; maxTokensFormatted := js "200k" |}.
Proof. reflexivity. Qed.

(** C1, as the code has it.  When the last line of the transcript parses to
    a record whose usage reports 190000 tokens read from the cache, 5000
    input tokens, 3000 output tokens and 1000 tokens of cache creation, the
    tokens used are their sum, 199000: it is below the ceiling, nothing is
    clamped, and 1000 tokens remain. *)
Theorem calculateTotalTokens_cached_turn lines line record msg u :
  last lines = Some line ->
  JSON_parse line = Some record ->
  message record = Some msg ->
  usage msg = Some u ->
  cache_read_input_tokens u = Some 190000 ->
  input_tokens u = Some 5000 ->
  output_tokens u = Some 3000 ->
  cache_creation_input_tokens u = Some 1000 ->
  calculateTotalTokens JSON_parse lines
  = {| totalUsed := 199000; totalRemaining := 1000; maxTokensFormatted := js "200k" |}.
Proof.
  intros Hlast Hparse Hmsg Hu Hread Hin Hout Hcreate.
  unfold calculateTotalTokens.
  assert (lastUsage JSON_parse lines = Some u) as ->.
  { unfold lastUsage. rewrite Hlast. cbn. rewrite Hparse. cbn. rewrite Hmsg. cbn.
    exact Hu. }
  cbn [mbind option_bind]. rewrite Hread, Hin, Hout, Hcreate. reflexivity.
Qed.

(** C2, as the code has it.  When no token count of the transcript is
    negative, the tokens used and the tokens remaining are not negative and
    add up to the larger of the tokens used and the ceiling 200000: to the
    ceiling itself unless more than 200000 tokens are used, which the branch
    of a last line with cache reads excludes by clamping. *)
Theorem calculateTotalTokens_invariant lines :
  forallb (nonNegativeLine JSON_parse) lines = true ->
  let stats := calculateTotalTokens JSON_parse lines in
  0 <= totalUsed stats
  /\ 0 <= totalRemaining stats
  /\ totalUsed stats + totalRemaining stats = Z.max (totalUsed stats) 200000
  /\ (totalUsed stats <= 200000 -> totalUsed stats + totalRemaining stats = 200000)
  /\ (0 < orZero (lastUsage JSON_parse lines ≫= cache_read_input_tokens) ->
      totalUsed stats <= 200000).
Proof.
  intros Hall stats.
  assert (0 <= totalUsed stats) as Hused.
  { subst stats. unfold calculateTotalTokens. cbn [totalUsed].
    destruct (fold_addLine_nonnegative lines zeroTotals Hall) as [Hin Hout];
      [done|done|].
    destruct (lastUsage JSON_parse lines) as [u|] eqn:Elast.
    - pose proof (lastUsage_nonnegative lines u Hall Elast) as Hu.
      unfold nonNegativeUsage in Hu.
      repeat (apply andb_prop in Hu as [Hu ?]). cbn [mbind option_bind].
      repeat case_match; lia.
    - cbn. repeat case_match; lia. }
  assert (totalRemaining stats = Z.max 0 (200000 - totalUsed stats)) as Hrem
    by reflexivity.
  repeat split; try lia.
  intros Hcache. subst stats. unfold calculateTotalTokens. cbn [totalUsed].
  destruct (orZero (lastUsage JSON_parse lines ≫= cache_read_input_tokens) >? 0)
    eqn:E; [|lia].
  case_match; lia.
Qed.

End TokenAccountingProperties.

(** The cached turn as the only line of the transcript, and followed by a
    line that is not JSON. *)
Lemma calculateTotalTokens_cached_turn_witness :
  last [cachedTurnLine] = Some cachedTurnLine
  /\ (readTranscriptLine cachedTurnLine ≫= message) ≫= usage = Some cachedTurnUsage
  /\ calculateTotalTokens readTranscriptLine [cachedTurnLine]
     = {| totalUsed := 199000; totalRemaining := 1000;
          maxTokensFormatted := js "200k" |}.
Proof.
  split; [reflexivity|]. split; [reflexivity|].
  eapply (calculateTotalTokens_cached_turn readTranscriptLine [cachedTurnLine]
            cachedTurnLine);
    reflexivity.
Defined.

(** C1 as it is stated fails twice.  The four counts add up to 199000, so
    that nothing is clamped; and the usage is read from the last line, not
    from the last line that parses: behind a line that is not JSON the
    fallback counts 8000 tokens. *)
Lemma clamp_claim_counterexample :
  ((lastParseable readTranscriptLine [cachedTurnLine] ≫= message) ≫= usage
   = Some cachedTurnUsage
   /\ totalUsed (calculateTotalTokens readTranscriptLine [cachedTurnLine]) = 199000
   /\ totalRemaining (calculateTotalTokens readTranscriptLine [cachedTurnLine]) = 1000
   /\ ~ (totalUsed (calculateTotalTokens readTranscriptLine [cachedTurnLine]) = 200000
         /\ totalRemaining (calculateTotalTokens readTranscriptLine [cachedTurnLine]) = 0))
  /\ ((lastParseable readTranscriptLine [cachedTurnLine; js "oops"] ≫= message) ≫= usage
      = Some cachedTurnUsage
      /\ totalUsed (calculateTotalTokens readTranscriptLine [cachedTurnLine; js "oops"])
         = 8000
      /\ totalRemaining
           (calculateTotalTokens readTranscriptLine [cachedTurnLine; js "oops"])
         = 192000).
Proof.
  repeat split; try reflexivity. vm_compute. intros [H _]. discriminate H.
Qed.

Example calculateTotalTokens_clamps :
  calculateTotalTokens readTranscriptLine
    [json "{'message':{'usage':{'input_tokens':15000,'output_tokens':3000,'cache_creation_input_tokens':1000,'cache_read_input_tokens':190000}}}"]
  = {| totalUsed := 200000; totalRemaining := 0; maxTokensFormatted := js "200k" |}.
Proof. reflexivity. Qed.

(** A negative count, which no transcript of the assistant has, would make
    the tokens used negative. *)
Example calculateTotalTokens_negative_count :
  totalUsed (calculateTotalTokens readTranscriptLine
               [json "{'message':{'usage':{'input_tokens':-5}}}"]) = -5.
Proof. reflexivity. Qed.

Lemma calculateTotalTokens_invariant_witness :
  forallb (nonNegativeLine readTranscriptLine) [largeTurnLine; cachedTurnLine] = true
  /\ 0 <= totalUsed (calculateTotalTokens readTranscriptLine [largeTurnLine; cachedTurnLine])
  /\ totalUsed (calculateTotalTokens readTranscriptLine [largeTurnLine; cachedTurnLine])
     + totalRemaining
         (calculateTotalTokens readTranscriptLine [largeTurnLine; cachedTurnLine])
     = 200000.
Proof.
  split; [reflexivity|].
  pose proof (calculateTotalTokens_invariant readTranscriptLine
                [largeTurnLine; cachedTurnLine] eq_refl) as (Hused & _ & _ & Hsum & Hle).
  split; [exact Hused|].
  apply Hsum, Hle. reflexivity.
Defined.

(** C2 as it is stated fails on the fallback branch, which does not clamp:
    a turn of 150000 input and 60000 output tokens without cache reads
    counts 210000 tokens used and none remaining. *)
Lemma ceiling_invariant_counterexample :
  totalUsed (calculateTotalTokens readTranscriptLine [largeTurnLine]) = 210000
  /\ totalRemaining (calculateTotalTokens readTranscriptLine [largeTurnLine]) = 0
  /\ totalUsed (calculateTotalTokens readTranscriptLine [largeTurnLine])
     + totalRemaining (calculateTotalTokens readTranscriptLine [largeTurnLine])
     <> 200000.
Proof. split; [reflexivity|]. split; [reflexivity|]. vm_compute. discriminate. Qed.

(** ** Loops *)

Lemma forLoop_ext {World St} (body1 body2 : nat -> St -> M World St) i n s w :
  (forall j s' w', (i <= j < i + n)%nat -> body1 j s' w' = body2 j s' w') ->
  forLoop body1 i n s w = forLoop body2 i n s w.
Proof.
  revert i s w. induction n as [|n IH]; intros i s w Hbody; [done|].
  cbn [forLoop]. unfold bind. rewrite Hbody by lia.
  destruct (body2 i s w) as [[s'|e] w']; [|done].
  apply IH. intros j s'' w'' Hj. apply Hbody. lia.
Qed.

Lemma forLoop_split {World St} (body : nat -> St -> M World St) i n k s w :
  forLoop body i (n + k) s w
  = (let! s' := forLoop body i n s in forLoop body (i + n) k s') w.
Proof.
  revert i s w. induction n as [|n IH]; intros i s w.
  - cbn. by rewrite Nat.add_0_r.
  - cbn [forLoop Nat.add]. unfold bind.
    destruct (body i s w) as [[s'|e] w']; [|done].
    rewrite IH. unfold bind. by rewrite Nat.add_succ_r.
Qed.

Lemma forEach_ext {World St A} (body1 body2 : A -> St -> M World St) items s w :
  (forall x s' w', body1 x s' w' = body2 x s' w') ->
  forEach body1 items s w = forEach body2 items s w.
Proof.
  intros Hbody. revert s w. induction items as [|x items IH]; intros s w; [done|].
  cbn [forEach]. unfold bind. rewrite Hbody.
  destruct (body2 x s w) as [[s'|e] w']; [|done]. apply IH.
Qed.

Lemma forEach_app {World St A} (body : A -> St -> M World St) items1 items2 s w :
  forEach body (items1 ++ items2) s w
  = (let! s' := forEach body items1 s in forEach body items2 s') w.
Proof.
  revert s w. induction items1 as [|x items1 IH]; intros s w.
  - done.
  - cbn [forEach app]. unfold bind.
    destruct (body x s w) as [[s'|e] w']; [|done]. apply IH.
Qed.

(** A loop over the indices of a list visits its elements in order. *)
Lemma forLoop_forEach {World St A} (body : A -> St -> M World St)
    (items : list A) i n s w :
  (i + n <= length items)%nat ->
  forLoop (fun j s' => match items !! j with
                       | Some x => body x s'
                       | None => throw TypeError
                       end) i n s w
  = forEach body (take n (drop i items)) s w.
Proof.
  revert i s w. induction n as [|n IH]; intros i s w Hlen; [done|].
  destruct (lookup_lt_is_Some_2 items i) as [x Hx]; [lia|].
  rewrite (drop_S _ _ _ Hx). cbn [forLoop take forEach]. unfold bind. rewrite Hx.
  destruct (body x s w) as [[s'|e] w']; [|done]. apply IH. lia.
Qed.

(** ** The renderers *)

Section RenderingProperties.

Context {World : Type} (host : Host World).






(** The default renderer is a loop over the first five modules. *)
Lemma renderDefaultStyle_forEach ms variables w :
  renderDefaultStyle host {| modules := Some ms |} variables w
  = (let! parts := forEach (fun m => defaultPart host m variables) (take 5 ms) [] in
     ret (join " " parts)) w.
Proof.
  unfold renderDefaultStyle. cbn [modules default from_option id]. unfold bind.
  unfold defaultIteration.
  rewrite (forLoop_forEach (fun m => defaultPart host m variables)) by lia.
  rewrite drop_0, <- take_take, (take_ge (take 5 ms)); [done|].
  rewrite length_take. lia.
Qed.

Lemma alike_refl m : sameRendering host m m.
Proof. by repeat split. Qed.

Lemma defaultPart_alike m m' variables parts w :
  sameRendering host m m' ->
  defaultPart host m variables parts w = defaultPart host m' variables parts w.
Proof.
  intros (Hi & Hc & Hb & Ht). unfold defaultPart, bind. by rewrite Hi, Hc, Hb, Ht.
Qed.

(** The iteration of a module without text leaves the parts as they are. *)
Lemma defaultPart_empty_text m variables parts w w' :
  moduleText host m variables w = (Returned [], w') ->
  defaultPart host m variables parts w = (Returned parts, w').
Proof.
  intros Ht. unfold defaultPart, bind. rewrite Ht. cbn [isEmpty].
  by rewrite orb_true_r.
Qed.

Lemma forEach_Forall2 {St A} (body1 body2 : A -> St -> M World St) items1 items2 s w :
  Forall2 (fun x y => forall s' w', body1 x s' w' = body2 y s' w') items1 items2 ->
  forEach body1 items1 s w = forEach body2 items2 s w.
Proof.
  intros Hall. revert s w. induction Hall as [|x y items1 items2 Hxy _ IH]; intros s w.
  - done.
  - cbn [forEach]. unfold bind. rewrite Hxy.
    destruct (body2 y s w) as [[s'|e] w']; [|done]. apply IH.
Qed.

Lemma renderDefaultStyle_alike ms ms' variables w :
  Forall2 (sameRendering host) ms ms' ->
  renderDefaultStyle host {| modules := Some ms |} variables w
  = renderDefaultStyle host {| modules := Some ms' |} variables w.
Proof.
  intros Hall. rewrite !renderDefaultStyle_forEach. unfold bind.
  rewrite (forEach_Forall2 (fun m => defaultPart host m variables)
             (fun m => defaultPart host m variables)
             (take 5 ms) (take 5 ms')); [done|].
  apply Forall2_take. eapply Forall2_impl; [exact Hall|].
  intros m m' Hm s' w'. by apply defaultPart_alike.
Qed.

(** Without a module whose text is empty and is got without any effect,
    the line is the same. *)
Lemma renderDefaultStyle_without_empty_module ms variables i m :
  ms !! i = Some m ->
  (i < 5)%nat ->
  (forall w, moduleText host m variables w = (Returned [], w)) ->
  forall w,
    renderDefaultStyle host {| modules := Some ms |} variables w
    = renderDefaultStyle host {| modules := Some (delete i (take 5 ms)) |} variables w.
Proof.
  intros Hm Hi Hempty w.
  assert (take 5 ms !! i = Some m) as Hm5 by by rewrite lookup_take_lt.
  rewrite !renderDefaultStyle_forEach.
  rewrite (take_ge (delete i (take 5 ms))).
  2: { rewrite length_delete by eauto. rewrite length_take. lia. }
  rewrite delete_take_drop.
  rewrite <- (take_drop_middle (take 5 ms) i m Hm5) at 1.
  unfold bind. rewrite !forEach_app. unfold bind.
  destruct (forEach _ (take i (take 5 ms)) [] w) as [[parts|e] w1]; [|done].
  cbn [forEach]. unfold bind.
  by rewrite (defaultPart_empty_text m variables parts w1 w1).
Qed.

(** C7.  In the default style, when the loop comes to a module of the first
    five whose text is empty, be it a template that substitutes to nothing
    or a script that prints nothing, it goes on to the next module with the
    parts it had: the module leaves no trace in the line, whatever its
    icon. *)
Theorem renderDefaultStyle_skips_empty_text ms variables i m parts w w1 w2 :
  ms !! i = Some m ->
  (i < 5)%nat ->
  forLoop (defaultIteration host ms variables) 0 i [] w
  = (Returned parts, w1) ->
  moduleText host m variables w1 = (Returned [], w2) ->
  renderDefaultStyle host {| modules := Some ms |} variables w
  = (let! parts' :=
       forLoop (defaultIteration host ms variables)
         (S i) (min (length ms) 5 - S i) parts in
     ret (join " " parts')) w2.
Proof.
  intros Hm Hi Hloop Htext.
  pose proof (lookup_lt_Some _ _ _ Hm) as Hlen.
  unfold renderDefaultStyle. cbn [modules default from_option id].
  replace (min (length ms) 5) with (i + S (min (length ms) 5 - S i))%nat at 1 by lia.
  unfold bind. rewrite forLoop_split. unfold bind. rewrite Hloop.
  cbn [forLoop]. unfold bind. rewrite Nat.add_0_l.
  unfold defaultIteration at 1. rewrite Hm.
  by rewrite (defaultPart_empty_text m variables parts w1 w2 Htext).
Qed.

Lemma lookAhead_returns ms i (w : World) :
  lookAhead ms i w = (Returned (nextBackgroundOf ms i), w).
Proof.
  unfold lookAhead, nextBackgroundOf.
  destruct (i <? length ms - 1)%nat eqn:Hi.
  - apply Nat.ltb_lt in Hi.
    destruct (lookup_lt_is_Some_2 ms (i + 1)) as [next ->]; [lia|]. done.
  - apply Nat.ltb_ge in Hi. rewrite lookup_ge_None_2 by lia. done.
Qed.


Lemma actualBackground_orElse o :
  orElse (Some (orElse o [])) "bg_bright_blue" = orElse o "bg_bright_blue".
Proof. by destruct o as [[|c s]|]. Qed.

Lemma powerlineIteration_alike ms ms' variables j m m' segs w :
  ms !! j = Some m -> ms' !! j = Some m' -> sameRendering host m m' ->
  nextBackgroundOf ms j = nextBackgroundOf ms' j ->
  powerlineIteration host ms variables j segs w
  = powerlineIteration host ms' variables j segs w.
Proof.
  intros Hm Hm' (Hi & Hc & Hb & Ht) Hnext. unfold powerlineIteration.
  rewrite Hm, Hm'. unfold bind. rewrite Hi, Hc, Hb, Ht.
  destruct (moduleText host m' variables w) as [[text|e] w1]; [|done].
  case_match; [done|]. by rewrite !lookAhead_returns, Hnext.
Qed.

Lemma nextBackgroundOf_alike ms ms' j :
  Forall2 (sameRendering host) ms ms' -> nextBackgroundOf ms j = nextBackgroundOf ms' j.
Proof.
  intros Hall. unfold nextBackgroundOf.
  rewrite Forall2_lookup in Hall.
  destruct (Hall (j + 1)%nat) as [m m' (_ & _ & Hb & _)|]; [|done].
  cbn. by rewrite Hb.
Qed.

Lemma renderPowerlineStyle_alike ms ms' variables w :
  Forall2 (sameRendering host) ms ms' ->
  renderPowerlineStyle host {| modules := Some ms |} variables w
  = renderPowerlineStyle host {| modules := Some ms' |} variables w.
Proof.
  intros Hall. unfold renderPowerlineStyle. cbn [modules default from_option id].
  unfold bind. rewrite <- (Forall2_length _ _ _ Hall).
  rewrite (forLoop_ext (powerlineIteration host ms variables)
             (powerlineIteration host ms' variables));
    [done|].
  intros j segs w' Hj.
  destruct (lookup_lt_is_Some_2 ms j) as [m Hm]; [lia|].
  destruct (Forall2_lookup_l _ _ _ _ _ Hall Hm) as (m' & Hm' & Halike).
  eauto using powerlineIteration_alike, nextBackgroundOf_alike.
Qed.

Lemma moduleText_without_scriptPath m variables w :
  truthy (scriptPath m) = false ->
  moduleText host m variables w = (Returned (replaceVariables (text m) variables), w).
Proof. unfold moduleText. intros ->. by rewrite andb_false_r. Qed.

Lemma moduleText_not_script m variables w :
  type m <> js "script" ->
  moduleText host m variables w = (Returned (replaceVariables (text m) variables), w).
Proof.
  unfold moduleText, jsstring_eqb. intros Hty. by rewrite bool_decide_eq_false_2.
Qed.

(** C10.  A module of type ["script"] whose script path is absent or empty
    takes its text from its template, without running any script, and both
    renderers draw the theme as they draw it with a module of another type
    that has the same text, icon and colours in its place. *)
Theorem script_without_path_is_template variables pre m m' post w :
  type m = js "script" ->
  truthy (scriptPath m) = false ->
  type m' <> js "script" ->
  text m' = text m -> icon m' = icon m -> color m' = color m ->
  background m' = background m ->
  moduleText host m variables w = (Returned (replaceVariables (text m) variables), w)
  /\ renderDefaultStyle host {| modules := Some (pre ++ m :: post) |} variables w
     = renderDefaultStyle host {| modules := Some (pre ++ m' :: post) |} variables w
  /\ renderPowerlineStyle host {| modules := Some (pre ++ m :: post) |} variables w
     = renderPowerlineStyle host {| modules := Some (pre ++ m' :: post) |} variables w.
Proof.
  intros Hty Hpath Hty' Htext Hicon Hcolor Hbg.
  assert (sameRendering host m m') as Halike.
  { repeat split; try done. intros vars w'.
    by rewrite moduleText_without_scriptPath, moduleText_not_script, Htext. }
  assert (Forall2 (sameRendering host) (pre ++ m :: post) (pre ++ m' :: post)) as Hall.
  { apply Forall2_app; [|constructor; [done|]];
      apply Forall2_same_length_lookup_2; try done;
      intros j x y Hx Hy; simplify_eq; apply alike_refl. }
  split; [by apply moduleText_without_scriptPath|].
  split; [by apply renderDefaultStyle_alike|by apply renderPowerlineStyle_alike].
Qed.

Lemma forLoop_length {St} (body : nat -> list St -> M World (list St)) i n s w s' w' :
  (forall j t v t' v', body j t v = (Returned t', v') -> (length t' <= S (length t))%nat) ->
  forLoop body i n s w = (Returned s', w') ->
  (length s' <= length s + n)%nat.
Proof.
  intros Hbody. revert i s w. induction n as [|n IH]; intros i s w Hrun.
  - cbn in Hrun. injection Hrun as <- _. lia.
  - cbn [forLoop] in Hrun. unfold bind in Hrun.
    destruct (body i s w) as [[t|e] v] eqn:Hstep; [|done].
    apply Hbody in Hstep. apply IH in Hrun. lia.
Qed.

Lemma defaultIteration_length ms variables j t v t' v' :
  defaultIteration host ms variables j t v = (Returned t', v') ->
  (length t' <= S (length t))%nat.
Proof.
  unfold defaultIteration, defaultPart, bind. intros H.
  destruct (ms !! j); [|done].
  destruct (moduleText host _ _ _) as [[tx|e] v1]; [|done].
  case_match; injection H as <- _; rewrite ?length_app; cbn; lia.
Qed.

Lemma powerlineIteration_length ms variables j t v t' v' :
  powerlineIteration host ms variables j t v = (Returned t', v') ->
  (length t' <= S (length t))%nat.
Proof.
  unfold powerlineIteration, bind. intros H.
  destruct (ms !! j); [|done].
  destruct (moduleText host _ _ _) as [[tx|e] v1]; [|done].
  case_match; [injection H as <- _; lia|].
  rewrite lookAhead_returns in H. injection H as <- _.
  rewrite length_app. cbn. lia.
Qed.

(** C8, as the code has it.  Neither renderer draws more than five parts.
    The line of the default style depends on the first five modules only;
    the line of the powerline style depends on the first five modules and on
    the background of the sixth, which the separator after the fifth segment
    leads into. *)
Theorem renderers_read_first_five ms ms' variables w :
  take 5 ms = take 5 ms' ->
  (renderDefaultStyle host {| modules := Some ms |} variables w
   = renderDefaultStyle host {| modules := Some ms' |} variables w)
  /\ (background <$> ms !! 5%nat = background <$> ms' !! 5%nat ->
      renderPowerlineStyle host {| modules := Some ms |} variables w
      = renderPowerlineStyle host {| modules := Some ms' |} variables w)
  /\ (forall parts w',
        forLoop (defaultIteration host ms variables)
          0 (min (length ms) 5) [] w = (Returned parts, w') ->
        (length parts <= 5)%nat)
  /\ (forall segments w',
        forLoop (powerlineIteration host ms variables) 0 (min (length ms) 5) [] w
        = (Returned segments, w') ->
        (length segments <= 5)%nat).
Proof.
  intros Htake. repeat split.
  - by rewrite !renderDefaultStyle_forEach, Htake.
  - intros Hsixth. unfold renderPowerlineStyle. cbn [modules default from_option id].
    unfold bind.
    assert (min (length ms) 5 = min (length ms') 5) as Hlen.
    { rewrite !(Nat.min_comm _ 5), <- !length_take. by rewrite Htake. }
    rewrite <- Hlen.
    rewrite (forLoop_ext (powerlineIteration host ms variables)
               (powerlineIteration host ms' variables));
      [done|].
    intros j segs v Hj.
    assert (forall k, (k < 5)%nat -> ms !! k = ms' !! k) as Hsame.
    { intros k Hk. by rewrite <- (lookup_take_lt ms 5 k), Htake, lookup_take_lt. }
    destruct (lookup_lt_is_Some_2 ms j) as [m Hm]; [lia|].
    apply (powerlineIteration_alike ms ms' variables j m m);
      [done|by rewrite <- Hsame by lia|apply alike_refl|].
    unfold nextBackgroundOf.
    destruct (decide (j + 1 < 5)%nat) as [Hlt|Hge].
    + by rewrite Hsame.
    + replace (j + 1)%nat with 5%nat by lia.
      destruct (ms !! 5%nat), (ms' !! 5%nat); cbn in *; congruence.
  - intros parts w' Hrun.
    apply forLoop_length in Hrun; [cbn in Hrun; lia|].
    apply defaultIteration_length.
  - intros segments w' Hrun.
    apply forLoop_length in Hrun; [cbn in Hrun; lia|].
    apply powerlineIteration_length.
Qed.

Lemma isEmpty_app_false (s t : jsstring) : t <> [] -> isEmpty (s ++ t) = false.
Proof. intros Ht. by destruct s, t. Qed.

(** What one iteration of the powerline loop appends for a module with
    text whose background resolves to a colour: its body on that colour and,
    when the next module of the list has a background, a separator in that
    colour on the colour of the next background, or on black when the next
    background resolves to none; when there is no next module, or it has no
    background, the body is all there is. *)
Lemma powerlineIteration_resolved ms variables i m text segs w w' bgRgb :
  ms !! i = Some m ->
  moduleText host m variables w = (Returned text, w') ->
  text <> [] ->
  getTrueColorRgb (orElse (background m) "bg_bright_blue") = Some bgRgb ->
  powerlineIteration host ms variables i segs w
  = (Returned
       (segs ++
          [ segmentBody (bgTrueColor bgRgb)
              (fgTrueColor
                 (default (Channels whiteRgb) (getTrueColorRgb (orElse (color m) "white"))))
              (buildDisplayText (orElse (icon m) []) text)
            ++ match nextBackgroundOf ms i with
               | Some nextBackground =>
                   separator bgRgb
                     (default (Channels blackRgb) (getTrueColorRgb nextBackground))
               | None => []
               end ]),
     w').
Proof.
  intros Hm Htext Hne Hbg. unfold powerlineIteration.
  rewrite Hm. unfold bind. rewrite Htext.
  unfold buildDisplayText at 1 2. rewrite (isEmpty_app_false _ text Hne).
  destruct text as [|c text']; [done|]. cbn [isEmpty orb].
  rewrite lookAhead_returns, actualBackground_orElse.
  unfold segment. rewrite Hbg.
  destruct (nextBackgroundOf ms i) as [nextBackground|].
  - destruct (getTrueColorRgb nextBackground); reflexivity.
  - by rewrite app_nil_r.
Qed.

Lemma separator_not_empty curRgb nextRgb body rest :
  body ++ rest <> body ++ separator curRgb nextRgb ++ rest.
Proof.
  intros Heq. apply (f_equal length) in Heq.
  unfold separator, SEP_RIGHT in Heq. rewrite !length_app in Heq. cbn in Heq. lia.
Qed.

(** C3.  The code leaves out a separator that the claim asks for.  When
    the module after a segment declares no background,
    [renderPowerlineStyle] passes [null] as the next background and
    [segment] returns the body alone: the first segment, on its own colour,
    is followed at once by the second, on the default bright blue, and not
    by a separator, neither on black as the claim has it for a next
    background that cannot be resolved, nor on any other colour. *)
Theorem powerline_omits_separator m1 m2 variables w text1 w1 text2 w2 bgRgb :
  moduleText host m1 variables w = (Returned text1, w1) -> text1 <> [] ->
  moduleText host m2 variables w1 = (Returned text2, w2) -> text2 <> [] ->
  getTrueColorRgb (orElse (background m1) "bg_bright_blue") = Some bgRgb ->
  truthy (background m2) = false ->
  let body1 :=
    segmentBody (bgTrueColor bgRgb)
      (fgTrueColor
         (default (Channels whiteRgb) (getTrueColorRgb (orElse (color m1) "white"))))
      (buildDisplayText (orElse (icon m1) []) text1) in
  let body2 :=
    segmentBody (bgTrueColor brightBlueRgb)
      (fgTrueColor
         (default (Channels whiteRgb) (getTrueColorRgb (orElse (color m2) "white"))))
      (buildDisplayText (orElse (icon m2) []) text2) in
  renderPowerlineStyle host {| modules := Some [m1; m2] |} variables w
  = (Returned (body1 ++ body2), w2)
  /\ forall nextRgb,
       renderPowerlineStyle host {| modules := Some [m1; m2] |} variables w
       <> (Returned (body1 ++ separator bgRgb nextRgb ++ body2), w2).
Proof.
  intros Htext1 Hne1 Htext2 Hne2 Hbg1 Hbg2 body1 body2.
  assert (orElse (background m2) "bg_bright_blue" = js "bg_bright_blue"
          /\ orNull (background m2) = None) as [Hown Hnext]
    by (by destruct (background m2) as [[|c s]|]).
  assert (renderPowerlineStyle host {| modules := Some [m1; m2] |} variables w
          = (Returned (body1 ++ body2), w2)) as Hrun.
  { unfold renderPowerlineStyle, bind. cbn [modules default from_option id length min forLoop].
    unfold bind.
    rewrite (powerlineIteration_resolved [m1; m2] variables 0 m1 text1 [] w w1 bgRgb)
      by done.
    rewrite (powerlineIteration_resolved [m1; m2] variables 1 m2 text2 _ w1 w2
               brightBlueRgb) by (rewrite ?Hown; done).
    unfold nextBackgroundOf. cbn [lookup list_lookup Nat.add mbind option_bind].
    rewrite Hnext. cbn [app join ret]. by rewrite !app_nil_r. }
  split; [exact Hrun|]. rewrite Hrun. intros nextRgb Heq.
  apply (separator_not_empty bgRgb nextRgb body1 body2). congruence.
Qed.

(** A module with text whose background resolves to no colour is drawn on
    the default blue, in white, without a separator. *)
Lemma powerline_unresolved_background ms variables i m text segs w w' :
  ms !! i = Some m ->
  moduleText host m variables w = (Returned text, w') ->
  text <> [] ->
  getTrueColorRgb (orElse (background m) "bg_bright_blue") = None ->
  powerlineIteration host ms variables i segs w
  = (Returned
       (segs ++ [ segmentBody (bgTrueColor defaultBlueRgb) (fgTrueColor whiteRgb)
                    (buildDisplayText (orElse (icon m) []) text) ]),
     w').
Proof.
  intros Hm Htext Hne Hbg. unfold powerlineIteration.
  rewrite Hm. unfold bind. rewrite Htext.
  unfold buildDisplayText at 1 2. rewrite (isEmpty_app_false _ text Hne).
  destruct text as [|c text']; [done|]. cbn [isEmpty orb].
  rewrite lookAhead_returns, actualBackground_orElse.
  unfold segment. by rewrite Hbg.
Qed.

End RenderingProperties.

(** ** The renderers on the example themes *)

Example renderDefaultStyle_without_icon_only_module :
  renderDefaultStyle quietHost
    {| modules := Some [ textModule "x" None None;
                         textModule "" (Some (js "I")) None;
                         textModule "y" None None ] |} ∅ tt
  = renderDefaultStyle quietHost
      {| modules := Some [ textModule "x" None None; textModule "y" None None ] |}
      ∅ tt.
Proof.
  apply (renderDefaultStyle_without_empty_module quietHost
           [ textModule "x" None None; textModule "" (Some (js "I")) None;
             textModule "y" None None ] ∅ 1 (textModule "" (Some (js "I")) None)).
  - reflexivity.
  - lia.
  - intros w. reflexivity.
Qed.

(** A script module with an icon whose script is missing: the failure is
    written to the console and the line shows the two other modules. *)
Lemma renderDefaultStyle_skips_empty_text_witness :
  icon missingScript = Some (js "I")
  /\ moduleText loggingHost missingScript ∅ []
     = (Returned [], [js "/missing.js"])
  /\ renderDefaultStyle loggingHost
       {| modules := Some [ textModule "x" None None; missingScript;
                            textModule "y" None None ] |} ∅ []
     = (Returned (js "x" ++ COLORS_reset ++ js " " ++ js "y" ++ COLORS_reset),
        [js "/missing.js"]).
Proof.
  split; [reflexivity|]. split; [reflexivity|].
  rewrite (renderDefaultStyle_skips_empty_text loggingHost
             [ textModule "x" None None; missingScript; textModule "y" None None ]
             ∅ 1 missingScript [js "x" ++ COLORS_reset] [] [] [js "/missing.js"]);
    first [reflexivity | lia].
Defined.

Example renderDefaultStyle_icon_only :
  renderDefaultStyle quietHost
    {| modules := Some [ textModule "{{gitBranch}}" (Some icon_git_branch) None ] |} ∅ tt
  = (Returned [], tt).
Proof. reflexivity. Qed.

(** A module of type ["script"] without a script path, and the module of
    type ["text"] that agrees with it otherwise. *)
Lemma script_without_path_is_template_witness :
  renderDefaultStyle quietHost
    {| modules := Some [ textModule "x" None None;
                         {| type := js "script"; icon := Some (js "I"); text := js "{{a}}";
                            color := None; background := Some (js "bg_red");
                            scriptPath := Some [] |} ] |}
    (<[js "a" := js "A"]> ∅) tt
  = renderDefaultStyle quietHost
      {| modules := Some [ textModule "x" None None;
                           textModule "{{a}}" (Some (js "I")) (Some (js "bg_red")) ] |}
      (<[js "a" := js "A"]> ∅) tt
  /\ renderPowerlineStyle quietHost
       {| modules := Some [ textModule "x" None None;
                            {| type := js "script"; icon := Some (js "I");
                               text := js "{{a}}"; color := None;
                               background := Some (js "bg_red");
                               scriptPath := Some [] |} ] |}
       (<[js "a" := js "A"]> ∅) tt
     = renderPowerlineStyle quietHost
         {| modules := Some [ textModule "x" None None;
                              textModule "{{a}}" (Some (js "I")) (Some (js "bg_red")) ] |}
         (<[js "a" := js "A"]> ∅) tt.
Proof.
  apply (script_without_path_is_template quietHost
           (<[js "a" := js "A"]> ∅) [textModule "x" None None]
           {| type := js "script"; icon := Some (js "I"); text := js "{{a}}";
              color := None; background := Some (js "bg_red"); scriptPath := Some [] |}
           (textModule "{{a}}" (Some (js "I")) (Some (js "bg_red"))) [] tt);
    first [reflexivity | discriminate].
Defined.

(** Six modules against the first five of them followed by a module that
    only shares the background of the sixth. *)
Lemma renderers_read_first_five_witness :
  take 5 sixModules
  = take 5 (take 5 sixModules ++ [textModule "other" None (Some (js "bg_red"))])
  /\ renderPowerlineStyle quietHost {| modules := Some sixModules |} ∅ tt
     = renderPowerlineStyle quietHost
         {| modules := Some (take 5 sixModules
                             ++ [textModule "other" None (Some (js "bg_red"))]) |} ∅ tt.
Proof.
  split; [reflexivity|].
  apply (renderers_read_first_five quietHost sixModules
           (take 5 sixModules ++ [textModule "other" None (Some (js "bg_red"))]) ∅ tt);
    reflexivity.
Defined.

(** C8 as it is stated fails in the powerline style: with six modules the
    fifth segment ends in a separator that leads into the background of the
    sixth module, and without the sixth module it does not. *)
Lemma sixth_module_counterexample :
  exists out,
    renderPowerlineStyle quietHost
      {| modules := Some (take 5 sixModules) |} ∅ tt = (Returned out, tt)
    /\ renderPowerlineStyle quietHost
         {| modules := Some sixModules |} ∅ tt
       = (Returned (out ++ separator redRgb redRgb), tt)
    /\ renderPowerlineStyle quietHost {| modules := Some sixModules |} ∅ tt
       <> renderPowerlineStyle quietHost
            {| modules := Some (take 5 sixModules) |} ∅ tt.
Proof.
  eexists. split; [vm_compute; reflexivity|]. split; [vm_compute; reflexivity|].
  vm_compute. discriminate.
Qed.

(** The example of a red module before a blue one: a separator from red to
    blue after the first segment, none after the last. *)
Example powerlineIteration_red_blue :
  powerlineIteration quietHost
    [ textModule "a" None (Some (js "bg_red"));
      textModule "b" None (Some (js "bg_blue")) ] ∅ 0 [] tt
  = (Returned
       [ segmentBody (bgTrueColor redRgb)
           (fgTrueColor {| r := 192; g := 192; b := 192 |}) (js "a")
         ++ separator redRgb {| r := 0; g := 0; b := 128 |} ],
     tt).
Proof.
  apply (powerlineIteration_resolved quietHost
           [ textModule "a" None (Some (js "bg_red"));
             textModule "b" None (Some (js "bg_blue")) ] ∅ 0
           (textModule "a" None (Some (js "bg_red"))) (js "a") [] tt tt redRgb);
    first [reflexivity | discriminate].
Qed.

Example renderPowerlineStyle_red_blue :
  renderPowerlineStyle quietHost
    {| modules := Some [ textModule "a" None (Some (js "bg_red"));
                         textModule "b" None (Some (js "bg_blue")) ] |} ∅ tt
  = (Returned
       (segmentBody (bgTrueColor redRgb)
          (fgTrueColor {| r := 192; g := 192; b := 192 |}) (js "a")
        ++ separator redRgb {| r := 0; g := 0; b := 128 |}
        ++ segmentBody (bgTrueColor {| r := 0; g := 0; b := 128 |})
             (fgTrueColor {| r := 192; g := 192; b := 192 |}) (js "b")),
     tt).
Proof. reflexivity. Qed.

(** A red module before a module without background: the red body, then
    the body on bright blue, and the separator glyph nowhere in the line. *)
Lemma powerline_omits_separator_witness :
  renderPowerlineStyle quietHost
    {| modules := Some redThenPlain |} ∅ tt
  = (Returned
       (segmentBody (bgTrueColor redRgb)
          (fgTrueColor {| r := 192; g := 192; b := 192 |}) (js "a")
        ++ segmentBody (bgTrueColor brightBlueRgb)
             (fgTrueColor {| r := 192; g := 192; b := 192 |}) (js "b")),
     tt)
  /\ forall nextRgb,
       renderPowerlineStyle quietHost
         {| modules := Some redThenPlain |} ∅ tt
       <> (Returned
             (segmentBody (bgTrueColor redRgb)
                (fgTrueColor {| r := 192; g := 192; b := 192 |}) (js "a")
              ++ separator redRgb nextRgb
              ++ segmentBody (bgTrueColor brightBlueRgb)
                   (fgTrueColor {| r := 192; g := 192; b := 192 |}) (js "b")),
           tt).
Proof.
  apply (powerline_omits_separator quietHost
           (textModule "a" None (Some (js "bg_red"))) (textModule "b" None None)
           ∅ tt (js "a") tt (js "b") tt redRgb);
    first [reflexivity | discriminate].
Defined.

Example renderPowerlineStyle_without_glyph :
  exists line,
    renderPowerlineStyle quietHost {| modules := Some redThenPlain |} ∅ tt
    = (Returned line, tt)
    /\ ~ In 57520%N line.
Proof.
  eexists. split; [reflexivity|].
  rewrite <- list_elem_of_In. apply (bool_decide_unpack _). vm_compute. exact I.
Qed.

(** A segment whose own background names no colour is drawn on the default
    blue and also lacks its separator, although its next module has a
    background; the last segment has none either. *)
Example renderPowerlineStyle_unresolved_then_red :
  getTrueColorRgb "no_such_color" = None
  /\ nextBackgroundOf unresolvedThenRed 0 = Some (js "bg_red")
  /\ nextBackgroundOf unresolvedThenRed 1 = None
  /\ renderPowerlineStyle quietHost
       {| modules := Some unresolvedThenRed |} ∅ tt
     = (Returned
          (segmentBody (bgTrueColor defaultBlueRgb) (fgTrueColor whiteRgb) (js "a")
           ++ segmentBody (bgTrueColor redRgb)
                (fgTrueColor {| r := 192; g := 192; b := 192 |}) (js "b")),
        tt)
  /\ ~ In 57520%N
         (segmentBody (bgTrueColor defaultBlueRgb) (fgTrueColor whiteRgb) (js "a")
          ++ segmentBody (bgTrueColor redRgb)
               (fgTrueColor {| r := 192; g := 192; b := 192 |}) (js "b")).
Proof.
  repeat split; try reflexivity.
  rewrite <- list_elem_of_In. apply (bool_decide_unpack _). vm_compute. exact I.
Qed.

(** ** The entry point never throws *)

Section PipelineProperties.

Context {World : Type} (host : Host World).

Lemma tryCatch_returns {A} (c : M World A) (a : A) w :
  exists a' w',
    tryCatch c (fun _ => ret a) w = (Returned a', w')
    /\ (forall e v, c w = (Thrown e, v) -> a' = a /\ w' = v)
    /\ (forall b v, c w = (Returned b, v) -> a' = b /\ w' = v).
Proof.
  unfold tryCatch, ret. destruct (c w) as [[b|e] v]; do 2 eexists;
    (split; [reflexivity|]); split; intros ? ? [= <- <-]; done.
Qed.

(** The theme lookup and the model lookup keep their failures to
    themselves. *)
Lemma getProjectThemeConfig_returns w :
  exists res w',
    getProjectThemeConfig host w
    = (Returned res, w').
Proof.
  unfold getProjectThemeConfig.
  edestruct (@tryCatch_returns) as (res & w' & Hrun & _).
  do 2 eexists. exact Hrun.
Qed.

Lemma modelFromConfig_returns workDir w :
  exists res w',
    modelFromConfig host workDir w
    = (Returned res, w').
Proof.
  unfold modelFromConfig.
  edestruct (@tryCatch_returns) as (res & w' & Hrun & _).
  do 2 eexists. exact Hrun.
Qed.

(** C6.  For every session input and every state of the world, the entry
    point returns a string: the line that the body renders when the body
    returns, the empty string when anything in the body throws. *)
Theorem parseStatusLineData_never_throws input w :
  exists line w',
    parseStatusLineData host input w = (Returned line, w')
    /\ (forall e v,
          parseStatusLineData_body host input w = (Thrown e, v) -> line = [] /\ w' = v)
    /\ (forall out v,
          parseStatusLineData_body host input w = (Returned out, v) ->
          line = out /\ w' = v).
Proof. apply tryCatch_returns. Qed.

(** An input without workspace, and a transcript that cannot be read. *)
Lemma parseStatusLineData_missing_workspace input w :
  Input.workspace input = None ->
  exists w', parseStatusLineData host input w = (Returned [], w').
Proof.
  intros Hws. unfold parseStatusLineData, tryCatch, parseStatusLineData_body, bind.
  destruct (getProjectThemeConfig_returns w) as ([theme style] & w1 & ->).
  rewrite Hws. cbn. eauto.
Qed.

Lemma parseStatusLineData_unreadable_transcript input ws path w :
  Input.workspace input = Some ws ->
  Input.transcript_path input = Some path ->
  (forall v, exists e v', fs_readFile host path v = (Thrown e, v')) ->
  exists w', parseStatusLineData host input w = (Returned [], w').
Proof.
  intros Hws Hpath Hread.
  unfold parseStatusLineData, parseStatusLineData_body, tryCatch, bind.
  destruct (getProjectThemeConfig_returns w) as ([theme style] & w1 & ->).
  rewrite Hws, Hpath. cbn [ret].
  destruct (execSync_git_branch host (Input.current_dir ws) w1) as [[out|e] w2];
    cbn [ret];
    match goal with
    | |- context [fs_readFile host path ?v] => destruct (Hread v) as (e' & v' & ->)
    end; eauto.
Qed.

End PipelineProperties.

(** The example session on a dumb terminal: the simple theme, with the
    model of the transcript, the directory, the totals of the fallback and
    the tokens of the last assistant turn. *)
Example parseStatusLineData_example :
  parseStatusLineData quietHost
    exampleInput tt
  = (Returned
       (join " "
          [ esc "[96m" ++ js "m" ++ COLORS_reset;
            esc "[94m" ++ js "proj" ++ COLORS_reset;
            esc "[97m" ++ js "Tokens: 8k/200k used | 192k remaining" ++ COLORS_reset;
            esc "[92m" ++ icon_up ++ js " 5.0k" ++ COLORS_reset;
            esc "[93m" ++ icon_right ++ js " 3.0k" ++ COLORS_reset ]),
     tt).
Proof. vm_compute. reflexivity. Qed.

(** The same session without its workspace: the empty string. *)
Example parseStatusLineData_example_without_workspace :
  parseStatusLineData quietHost
    {| Input.session_id := None; Input.transcript_path := Some (js "/t.jsonl");
       Input.cwd := None; Input.model := None; Input.workspace := None |} tt
  = (Returned [], tt).
Proof. reflexivity. Qed.

(** * Further properties *)

(** ** Colour tokens *)

Lemma lookupKey_In {A} (table : list (jsstring * A)) key v :
  lookupKey table key = Some v -> In (key, v) table.
Proof.
  induction table as [|[k x] table IH]; [done|]. cbn. unfold jsstring_eqb.
  case_bool_decide; [intros [= <-]; left; congruence | auto].
Qed.

Lemma hexToRgb_channels hex c :
  hexToRgb hex = Some c -> 0 <= r c <= 255 /\ 0 <= g c <= 255 /\ 0 <= b c <= 255.
Proof.
  unfold hexToRgb. intros H.
  repeat case_match; simplify_eq; cbn [r g b];
    repeat match goal with
           | H : _ || _ = false |- _ => apply orb_false_elim in H as [? ?]
           end;
    lia.
Qed.

Lemma color256ToRgb_in_range index :
  0 <= index <= 255 ->
  exists c, color256ToRgb index = Some c
            /\ 0 <= r c <= 255 /\ 0 <= g c <= 255 /\ 0 <= b c <= 255.
Proof.
  intros Hrange. unfold color256ToRgb.
  destruct (index <? 0) eqn:Hneg; [lia|].
  destruct (index >? 255) eqn:Hbig; [lia|]. cbn [orb].
  destruct (index <? 16) eqn:Hbasic.
  - destruct (basicColors_lookup index) as (cr & cg & cb & -> & Hr & Hg & Hb); [lia|].
    cbn. eexists. split; [reflexivity|]. cbn. lia.
  - destruct (index <? 232) eqn:Hcube.
    + unfold floorDiv, jsRem. rewrite !Z.rem_mod_nonneg by lia.
      destruct (cubeLevels_lookup ((index - 16) / 36)) as (cr & -> & _ & Hr);
        [Z.to_euclidean_division_equations; lia|].
      destruct (cubeLevels_lookup (((index - 16) mod 36) / 6)) as (cg & -> & _ & Hg);
        [Z.to_euclidean_division_equations; lia|].
      destruct (cubeLevels_lookup ((index - 16) mod 6)) as (cb & -> & _ & Hb);
        [Z.to_euclidean_division_equations; lia|].
      cbn. eexists. split; [reflexivity|]. cbn [r g b]. lia.
    + eexists. split; [reflexivity|]. cbn. lia.
Qed.

Lemma color256ToRgb_out_of_range index :
  index < 0 \/ 255 < index -> color256ToRgb index = None.
Proof.
  intros H. unfold color256ToRgb.
  destruct (index <? 0) eqn:Hneg; [done|].
  destruct (index >? 255) eqn:Hbig; [done|]. lia.
Qed.

(** X1.  A token of six hexadecimal digits, with or without a leading [#],
    resolves in [hexToRgb] and in [getTrueColorRgb] to the colour whose
    channels are the numbers written by its three pairs of digits. *)
Theorem six_digits_resolve d1 d2 d3 d4 d5 d6 v1 v2 v3 v4 v5 v6 :
  hexDigit d1 = Some v1 -> hexDigit d2 = Some v2 -> hexDigit d3 = Some v3 ->
  hexDigit d4 = Some v4 -> hexDigit d5 = Some v5 -> hexDigit d6 = Some v6 ->
  let rgb := {| r := 16 * v1 + v2; g := 16 * v3 + v4; b := 16 * v5 + v6 |} in
  hexToRgb [d1; d2; d3; d4; d5; d6] = Some rgb
  /\ hexToRgb (35%N :: [d1; d2; d3; d4; d5; d6]) = Some rgb
  /\ getTrueColorRgb [d1; d2; d3; d4; d5; d6] = Some (Channels rgb)
  /\ getTrueColorRgb (35%N :: [d1; d2; d3; d4; d5; d6]) = Some (Channels rgb).
Proof.
  intros H1 H2 H3 H4 H5 H6 rgb.
  pose proof (hexToRgb_six_digits _ _ _ _ _ _ _ _ _ _ _ _ H1 H2 H3 H4 H5 H6) as Hhex.
  destruct (getTrueColorRgb_six_digits _ _ _ _ _ _ _ _ _ _ _ _ H1 H2 H3 H4 H5 H6)
    as [Hplain Hhash].
  repeat split;
    first [done | rewrite hexToRgb_hash by eauto using stripHash_hexDigit; exact Hhex].
Qed.

Lemma six_digits_resolve_witness :
  getTrueColorRgb "#ff8800" = Some (Channels {| r := 255; g := 136; b := 0 |})
  /\ hexToRgb "FF8800" = Some {| r := 255; g := 136; b := 0 |}.
Proof.
  destruct (six_digits_resolve 102 102 56 56 48 48 15 15 8 8 0 0
              eq_refl eq_refl eq_refl eq_refl eq_refl eq_refl) as (_ & _ & _ & H).
  split; [exact H|reflexivity].
Defined.

(** X2.  The shorthand of three hexadecimal digits resolves, in [hexToRgb]
    and in [getTrueColorRgb], as the six digits that double each of them. *)
Theorem shorthand_doubles_digits d1 d2 d3 v1 v2 v3 :
  hexDigit d1 = Some v1 -> hexDigit d2 = Some v2 -> hexDigit d3 = Some v3 ->
  hexToRgb [d1; d2; d3] = hexToRgb [d1; d1; d2; d2; d3; d3]
  /\ getTrueColorRgb [d1; d2; d3] = getTrueColorRgb [d1; d1; d2; d2; d3; d3]
  /\ getTrueColorRgb [d1; d2; d3]
     = Some (Channels {| r := 17 * v1; g := 17 * v2; b := 17 * v3 |}).
Proof.
  intros H1 H2 H3.
  destruct (hexToRgb_shorthand _ _ _ _ _ _ H1 H2 H3) as [Heq _].
  pose proof (getTrueColorRgb_shorthand _ _ _ _ _ _ H1 H2 H3) as Htrue.
  repeat split; try done.
  rewrite Htrue.
  destruct (getTrueColorRgb_six_digits _ _ _ _ _ _ _ _ _ _ _ _ H1 H1 H2 H2 H3 H3)
    as [-> _].
  do 3 f_equal; lia.
Qed.

Lemma shorthand_doubles_digits_witness :
  getTrueColorRgb "abc" = getTrueColorRgb "aabbcc"
  /\ getTrueColorRgb "abc" = Some (Channels {| r := 170; g := 187; b := 204 |}).
Proof.
  destruct (shorthand_doubles_digits 97 98 99 10 11 12 eq_refl eq_refl eq_refl)
    as (_ & H & H').
  split; [exact H|exact H'].
Defined.

Lemma inherited_not_in_COLOR_MAP key :
  is_Some (inherited key) -> lookupKey COLOR_MAP key = None.
Proof.
  intros [v Hv]. apply lookupKey_In in Hv.
  assert (forallb (fun kv : jsstring * jsstring =>
                     bool_decide (lookupKey COLOR_MAP kv.1 = None))
            Object_prototype = true) as Hall by (vm_compute; reflexivity).
  rewrite forallb_forall in Hall. specialize (Hall _ Hv).
  by apply bool_decide_eq_true_1 in Hall.
Qed.

(** X3.  A colour that [getTrueColorRgb] resolves to numbers, from a name
    of the table or from hexadecimal digits, has its three channels in
    0..255; the three channels are [NaN] exactly for the names that the
    table inherits from [Object.prototype], such as [constructor]. *)
Theorem getTrueColorRgb_channels colorName :
  (forall c, getTrueColorRgb colorName = Some (Channels c) ->
             0 <= r c <= 255 /\ 0 <= g c <= 255 /\ 0 <= b c <= 255)
  /\ (getTrueColorRgb colorName = Some NaNChannels <-> is_Some (inherited colorName)).
Proof.
  split.
  - unfold getTrueColorRgb. intros c H.
    destruct (lookupKey COLOR_MAP colorName) as [index|].
    + destruct (decide (0 <= index <= 255)) as [Hin|Hout].
      * destruct (color256ToRgb_in_range index Hin) as (c' & Hc' & Hrange).
        rewrite Hc' in H. cbn in H. congruence.
      * rewrite color256ToRgb_out_of_range in H by lia. done.
    + destruct (inherited colorName); [done|].
      repeat case_match; try done;
        match type of H with
        | Channels <$> hexToRgb ?h = _ =>
            destruct (hexToRgb h) as [c'|] eqn:Hc'; [|done];
            injection H as <-; eauto using hexToRgb_channels
        end.
  - split.
    + unfold getTrueColorRgb. intros H.
      destruct (lookupKey COLOR_MAP colorName) as [index|].
      * by destruct (color256ToRgb index).
      * destruct (inherited colorName); [by eexists|].
        repeat case_match; try done;
          match goal with
          | H : Channels <$> hexToRgb ?h = _ |- _ => by destruct (hexToRgb h)
          end.
    + intros Hinherited. unfold getTrueColorRgb.
      rewrite (inherited_not_in_COLOR_MAP _ Hinherited).
      by destruct Hinherited as [v ->].
Qed.

Lemma getTrueColorRgb_channels_witness :
  getTrueColorRgb "bg_bright_orange" = Some (Channels {| r := 255; g := 95; b := 0 |})
  /\ 0 <= 255 <= 255 /\ 0 <= 95 <= 255 /\ 0 <= 0 <= 255.
Proof.
  split; [reflexivity|].
  destruct (getTrueColorRgb_channels "bg_bright_orange") as [Hrange _].
  apply (Hrange {| r := 255; g := 95; b := 0 |}). reflexivity.
Defined.

(** An inherited name as the background of a powerline segment. *)
Example getTrueColorRgb_constructor :
  getTrueColorRgb "constructor" = Some NaNChannels
  /\ bgTrueColor NaNChannels = esc "[48;2;NaN;NaN;NaNm".
Proof. split; reflexivity. Qed.

(** X4.  [color256ToRgb] returns null exactly for the indices outside
    0..255. *)
Theorem color256ToRgb_null index :
  color256ToRgb index = None <-> index < 0 \/ 255 < index.
Proof.
  split; [|apply color256ToRgb_out_of_range].
  intros Hnone. destruct (decide (0 <= index <= 255)) as [Hin|Hout]; [|lia].
  destruct (color256ToRgb_in_range index Hin) as (c & Hc & _). congruence.
Qed.

(** X5.  A token whose length, once a leading [#] and the white space around
    the rest are removed, is neither 3 nor 6 is no colour for [hexToRgb]. *)
Theorem hexToRgb_rejects_length hex :
  length (trim (stripHash hex)) <> 3%nat ->
  length (trim (stripHash hex)) <> 6%nat ->
  hexToRgb hex = None.
Proof. apply hexToRgb_wrong_length. Qed.

Lemma hexToRgb_rejects_length_witness : hexToRgb "#ff88" = None.
Proof. apply hexToRgb_rejects_length; vm_compute; discriminate. Defined.

Lemma COLORS_names :
  Forall (fun kv : jsstring * jsstring => looksLikeHex kv.1 = false) COLORS.
Proof. repeat constructor. Qed.

(** X6.  A name of the table [COLORS] always gets the escape sequence of the
    table: no such name is taken for hexadecimal digits. *)
Theorem getColorCode_predefined colorName code :
  lookupKey COLORS colorName = Some code -> getColorCode colorName = code.
Proof.
  intros Hcode. unfold getColorCode.
  pose proof COLORS_names as Hnames. rewrite Forall_forall in Hnames.
  pose proof (lookupKey_In _ _ _ Hcode) as Hin. apply list_elem_of_In in Hin.
  specialize (Hnames (colorName, code) Hin). cbn [fst] in Hnames.
  by rewrite Hnames, Hcode.
Qed.

Lemma getColorCode_predefined_witness : getColorCode "bg_red" = esc "[41m".
Proof. apply getColorCode_predefined. reflexivity. Defined.



Lemma COLOR_MAP_fourth_unit :
  Forall (fun kv : jsstring * Z => kv.1 !! 3%nat <> Some 35%N) COLOR_MAP.
Proof. repeat constructor; discriminate. Qed.

(** X8.  A background written [bg_#...] resolves in [getTrueColorRgb] as the
    colour written [#...]. *)
Theorem getTrueColorRgb_bg_hash s :
  getTrueColorRgb (js "bg_" ++ 35%N :: s) = getTrueColorRgb (35%N :: s).
Proof.
  unfold getTrueColorRgb at 2. rewrite COLOR_MAP_hash, inherited_head by auto.
  unfold looksLikeHex at 1. change (startsWith "#" (35%N :: s)) with true. cbn [orb].
  unfold getTrueColorRgb.
  rewrite lookupKey_absent.
  2: { eapply Forall_impl; [apply COLOR_MAP_fourth_unit|].
       intros [k v] Hk Heq. cbn in Hk, Heq. subst k. by apply Hk. }
  change (js "bg_" ++ 35%N :: s) with (98%N :: 103%N :: 95%N :: 35%N :: s).
  rewrite inherited_head by auto.
  assert (looksLikeHex (98%N :: 103%N :: 95%N :: 35%N :: s) = false) as ->.
  { unfold looksLikeHex, isHexDigits.
    change (startsWith "#" (98%N :: _)) with false.
    cbn [forallb]. change (isHexDigit 103) with false.
    by rewrite andb_false_r, !andb_false_r. }
  change (startsWith "bg_#" (98%N :: 103%N :: 95%N :: 35%N :: s)) with true.
  reflexivity.
Qed.

(** X9.  Every colour name that the default style knows from [COLORS],
    apart from [reset], [bold] and [dim], is also a colour of the powerline
    style: [getTrueColorRgb] resolves it. *)
Theorem COLORS_resolve_in_powerline colorName code :
  lookupKey COLORS colorName = Some code ->
  colorName <> js "reset" -> colorName <> js "bold" -> colorName <> js "dim" ->
  exists c : Rgb, getTrueColorRgb colorName = Some (Channels c).
Proof.
  intros Hcode Hreset Hbold Hdim. apply lookupKey_In in Hcode.
  assert (forallb (fun kv : jsstring * jsstring =>
                     match getTrueColorRgb kv.1 with
                     | Some (Channels _) => true
                     | _ => false
                     end
                     || bool_decide (kv.1 ∈ [js "reset"; js "bold"; js "dim"]))
            COLORS = true) as Hall by (vm_compute; reflexivity).
  rewrite forallb_forall in Hall. specialize (Hall _ Hcode). cbn [fst] in Hall.
  apply orb_true_iff in Hall as [Hsome|Hattr].
  - destruct (getTrueColorRgb colorName) as [[c|]|]; [by exists c|done|done].
  - apply bool_decide_eq_true_1 in Hattr.
    repeat (apply elem_of_cons in Hattr as [?|Hattr]; [done|]).
    by apply elem_of_nil in Hattr.
Qed.

Lemma COLORS_resolve_in_powerline_witness :
  exists c : Rgb, getTrueColorRgb "bright_cyan" = Some (Channels c).
Proof.
  apply (COLORS_resolve_in_powerline "bright_cyan" (esc "[96m"));
    first [reflexivity | discriminate].
Defined.

(** ** Variable substitution *)

Lemma matchVariable_brace c s : c <> 123%N -> matchVariable (c :: s) = None.
Proof.
  intros Hc. unfold matchVariable.
  repeat match goal with
         | |- context [match ?x with _ => _ end] => is_var x; destruct x; try done
         end.
Qed.

Lemma takeWord_app name rest :
  forallb isWordChar name = true ->
  takeWord (name ++ 125%N :: rest) = name.
Proof.
  induction name as [|c name IH]; cbn; [done|].
  intros [-> Hname]%andb_prop. by rewrite IH.
Qed.

Lemma matchVariable_placeholder name rest :
  name <> [] -> forallb isWordChar name = true ->
  matchVariable (js "{{" ++ name ++ js "}}" ++ rest) = Some name.
Proof.
  intros Hne Hword.
  change (js "{{" ++ name ++ js "}}" ++ rest)
    with (123%N :: 123%N :: name ++ 125%N :: 125%N :: rest).
  cbn [matchVariable]. rewrite takeWord_app by done.
  destruct name as [|c name]; [done|].
  by rewrite drop_app_length.
Qed.

Lemma replaceFrom_skip variables skipped rest :
  replaceFrom variables (length skipped) (skipped ++ rest)
  = replaceFrom variables 0 rest.
Proof. induction skipped as [|c skipped IH]; [done|]. exact IH. Qed.

Lemma replaceFrom_match variables c s name :
  matchVariable (c :: s) = Some name ->
  replaceFrom variables 0 (c :: s)
  = default [] (readProperty (variables !! name) name)
    ++ replaceFrom variables (length name + 3) s.
Proof. cbn [replaceFrom]. by intros ->. Qed.

(** X10.  A text without an opening brace is left as it is. *)
Theorem replaceVariables_plain text variables :
  Forall (fun c => c <> 123%N) text -> replaceVariables text variables = text.
Proof.
  unfold replaceVariables. induction 1 as [|c text Hc _ IH]; [done|].
  cbn [replaceFrom]. rewrite matchVariable_brace by done. by rewrite IH.
Qed.

Lemma replaceVariables_plain_witness :
  replaceVariables "main branch" (<[js "a" := js "A"]> ∅) = js "main branch".
Proof.
  apply replaceVariables_plain. vm_compute. repeat constructor; discriminate.
Defined.

(** X11.  Behind a text without an opening brace, a placeholder [{{name}}]
    whose name is made of word characters is replaced by what
    [variables[name]] reads: the value of the variable, or, when the object
    has no such variable, the text of the property that it inherits under
    that name, or nothing when it inherits none; the substitution goes on
    behind the placeholder, and the value itself is not read again. *)
Theorem replaceVariables_placeholder before name rest variables :
  Forall (fun c => c <> 123%N) before ->
  name <> [] -> forallb isWordChar name = true ->
  replaceVariables (before ++ js "{{" ++ name ++ js "}}" ++ rest) variables
  = before ++ default [] (readProperty (variables !! name) name)
    ++ replaceVariables rest variables.
Proof.
  intros Hbefore Hne Hword. unfold replaceVariables.
  induction Hbefore as [|c before Hc _ IH].
  - cbn [app].
    pose proof (matchVariable_placeholder name rest Hne Hword) as Hmatch.
    change (js "{{" ++ name ++ js "}}" ++ rest)
      with (123%N :: 123%N :: name ++ js "}}" ++ rest) in *.
    rewrite (replaceFrom_match _ _ _ _ Hmatch).
    pose proof (replaceFrom_skip variables (123%N :: name ++ js "}}") rest) as Hskip.
    rewrite <- app_comm_cons, <- app_assoc in Hskip.
    replace (length (123%N :: name ++ js "}}")) with (length name + 3)%nat in Hskip
      by (cbn; rewrite length_app; cbn; lia).
    by rewrite Hskip.
  - cbn [app replaceFrom]. rewrite matchVariable_brace by done. by rewrite IH.
Qed.

Lemma replaceVariables_placeholder_witness :
  replaceVariables "on {{gitBranch}}{{unknown}}!"
    (<[js "gitBranch" := js "{{model}}"]> ∅)
  = js "on {{model}}!".
Proof.
  rewrite (replaceVariables_placeholder (js "on ") (js "gitBranch")
             (js "{{unknown}}!") (<[js "gitBranch" := js "{{model}}"]> ∅));
    [reflexivity | vm_compute; repeat constructor; discriminate
    | discriminate | reflexivity].
Defined.

(** A name that every object inherits, and one that none does. *)
Example replaceVariables_inherited :
  replaceVariables "{{constructor}}{{unknown}}" ∅
  = js "function Object() { [native code] }".
Proof. reflexivity. Qed.

(** ** Formatting of token counts *)

(** X12.  [formatTokensWithK] writes a count up to 1000 as it is, and a
    larger count as the nearest number of thousands followed by [k], a half
    being rounded up. *)
Theorem formatTokensWithK_nearest tokens :
  (tokens <= 1000 -> formatTokensWithK tokens = show_Z tokens)
  /\ (1000 < tokens ->
      exists k, formatTokensWithK tokens = show_Z k ++ js "k"
                /\ 1000 * k - 500 <= tokens < 1000 * k + 500).
Proof.
  unfold formatTokensWithK. split; intros H.
  - destruct (tokens >? 1000) eqn:E; [lia|done].
  - destruct (tokens >? 1000) eqn:E; [|lia].
    exists (roundDiv tokens 1000). split; [done|].
    unfold roundDiv. Z.to_euclidean_division_equations. lia.
Qed.

Lemma digits_no_space d : Forall (fun c => c <> 32%N) (js (NilEmpty.string_of_uint d)).
Proof. induction d; cbn; constructor; done. Qed.

Lemma show_Z_no_space n : Forall (fun c => c <> 32%N) (show_Z n).
Proof.
  unfold show_Z. destruct (Z.to_int n) as [d|d]; cbn.
  - apply digits_no_space.
  - constructor; [done|apply digits_no_space].
Qed.

Lemma split_single sep s : Forall (fun c => c <> sep) s -> split sep s = [s].
Proof.
  induction 1 as [|c s Hc _ IH]; [done|].
  cbn. destruct (N.eqb_spec c sep); [done|]. by rewrite IH.
Qed.

Lemma split_two sep s t :
  Forall (fun c => c <> sep) s -> Forall (fun c => c <> sep) t ->
  split sep (s ++ sep :: t) = [s; t].
Proof.
  intros Hs Ht. induction Hs as [|c s Hc _ IH].
  - cbn. rewrite N.eqb_refl. by rewrite split_single.
  - cbn. destruct (N.eqb_spec c sep); [done|]. by rewrite IH.
Qed.

Lemma formatCount_no_space toFixed1 n :
  (forall z, Forall (fun c => c <> 32%N) (toFixed1 z)) ->
  Forall (fun c => c <> 32%N) (formatCount toFixed1 n).
Proof.
  intros Hfixed. destruct n as [z|]; cbn.
  - case_match; [|apply show_Z_no_space].
    apply Forall_app. split; [apply Hfixed|]. repeat constructor; done.
  - vm_compute. repeat constructor; discriminate.
Qed.

(** X13.  [formatUsage] writes the two counts, each in its own format, with
    one space between them, whichever of its two branches is taken; so the
    split on the space that [parseStatusLineData] does gives back exactly
    the formatted input count and the formatted output count. *)
Theorem formatUsage_fields {World} (host : Host World) input_tokens output_tokens :
  (forall z, Forall (fun c => c <> 32%N) (toFixed1_of_thousandth host z)) ->
  formatUsage host input_tokens output_tokens
  = formatCount (toFixed1_of_thousandth host) input_tokens ++ js " "
    ++ formatCount (toFixed1_of_thousandth host) output_tokens
  /\ split 32%N (formatUsage host input_tokens output_tokens)
     = [ formatCount (toFixed1_of_thousandth host) input_tokens;
         formatCount (toFixed1_of_thousandth host) output_tokens ].
Proof.
  intros Hfixed.
  assert (formatUsage host input_tokens output_tokens
          = formatCount (toFixed1_of_thousandth host) input_tokens ++ js " "
            ++ formatCount (toFixed1_of_thousandth host) output_tokens) as Heq.
  { unfold formatUsage, formatCount, above1000, show_number.
    destruct input_tokens as [i|], output_tokens as [o|];
      repeat case_match; try done; cbn in *; congruence. }
  split; [exact Heq|]. rewrite Heq.
  apply (split_two 32%N); by apply formatCount_no_space.
Qed.

Lemma exactTenths_no_space z : Forall (fun c => c <> 32%N) (exactTenths z).
Proof.
  unfold exactTenths. repeat (apply Forall_app; split);
    first [apply show_Z_no_space | repeat constructor; done].
Qed.

Lemma formatUsage_fields_witness :
  split 32%N (formatUsage (World := unit) quietHost (Some 500) (Some 2500))
  = [js "500"; js "2.5k"].
Proof.
  destruct (formatUsage_fields (World := unit) quietHost (Some 500) (Some 2500)
              exactTenths_no_space) as [_ H].
  exact H.
Defined.

(** ** The choice of the theme *)

(** Runs a computation of the model by cases on the outcomes of its
    steps. *)
Ltac run_cases :=
  repeat match goal with
         | |- context [match ?x with _ => _ end] =>
             lazymatch x with
             | context [match _ with _ => _ end] => fail
             | _ => destruct x eqn:?
             end
         end.

(** X14.  The terminal and the fonts have no say in [canDisplayNerdFonts]:
    it is false exactly when [USE_SIMPLE_ICONS] is ["true"], and the
    built-in theme is the simple one exactly when [shouldUseSimpleTheme]
    says so. *)
Theorem canDisplayNerdFonts_override {World} (host : Host World) :
  canDisplayNerdFonts host = negb (envIs host "USE_SIMPLE_ICONS" "true")
  /\ shouldUseSimpleTheme host || negb (canDisplayNerdFonts host)
     = shouldUseSimpleTheme host.
Proof.
  unfold canDisplayNerdFonts, shouldUseSimpleTheme.
  destruct (envIs host "USE_SIMPLE_ICONS" "true"); split; run_cases; done.
Qed.

(** X15.  [canDisplayUnicodeCharacter] answers true for every character and
    every environment. *)
Theorem canDisplayUnicodeCharacter_true {World} (host : Host World) char :
  canDisplayUnicodeCharacter host char = true.
Proof. unfold canDisplayUnicodeCharacter. run_cases; done. Qed.

(** X16.  [getProjectThemeConfig] never throws, whatever the file system
    and the parser do; a theme that it returns has a list of modules, and
    without a theme the style it returns is ["default"]. *)
Theorem getProjectThemeConfig_result {World} (host : Host World) w :
  exists theme style w',
    getProjectThemeConfig host w = (Returned (theme, style), w')
    /\ match theme with
       | Some t => is_Some (modules t)
       | None => style = js "default"
       end.
Proof.
  unfold getProjectThemeConfig, tryCatch, bind, parseConfig, ret, throw.
  run_cases; simplify_eq; do 3 eexists; (split; [reflexivity|]); cbn; eauto.
Qed.

(** X17.  The theme that [getProjectThemeConfig] finds for the current
    style is the theme that [getProjectThemeConfigForStyle] finds when it is
    asked for that style in the same world. *)
Theorem getProjectThemeConfigForStyle_current {World} (host : Host World)
    theme style w w' :
  getProjectThemeConfig host w = (Returned (Some theme, style), w') ->
  getProjectThemeConfigForStyle host style w = (Returned (Some theme), w').
Proof.
  unfold getProjectThemeConfig, getProjectThemeConfigForStyle,
    tryCatch, bind, parseConfig, ret, throw.
  intros H.
  repeat match type of H with
         | context [match ?x with _ => _ end] =>
             lazymatch x with
             | context [match _ with _ => _ end] => fail
             | _ => destruct x eqn:?
             end
         end; simplify_eq.
  repeat match goal with
         | E : ?x = _ |- context [?x] => rewrite E
         end.
  done.
Qed.

Lemma getProjectThemeConfigForStyle_current_witness :
  getProjectThemeConfig configuredHost tt
  = (Returned (Some POWERLINE_THEME, js "powerline"), tt)
  /\ getProjectThemeConfigForStyle configuredHost (js "powerline") tt
     = (Returned (Some POWERLINE_THEME), tt).
Proof.
  split; [reflexivity|].
  apply (getProjectThemeConfigForStyle_current configuredHost). reflexivity.
Defined.

(** A style that the configuration does not have gives no theme. *)
Example getProjectThemeConfigForStyle_other :
  getProjectThemeConfigForStyle configuredHost (js "default") tt = (Returned None, tt).
Proof. reflexivity. Qed.

(** ** Script modules *)

(** X18.  When a script cannot be accessed, when it cannot be loaded, or
    when its function throws or returns a Promise that rejects,
    [executeScript] logs the error under the path of the script and returns
    the empty text; a script that cannot be accessed is not loaded. *)
Theorem executeScript_failure_is_logged {World} (host : Host World)
    scriptPath variables w e w' :
  fs_access host scriptPath w = (Thrown e, w')
  \/ (exists w1,
        fs_access host scriptPath w = (Returned tt, w1)
        /\ require host scriptPath w1 = (Thrown e, w'))
  \/ (exists w1 w2 f,
        fs_access host scriptPath w = (Returned tt, w1)
        /\ (require host scriptPath w1 = (Returned (ExportFunction f), w2)
            \/ require host scriptPath w1 = (Returned (ExportDefaultFunction f), w2))
        /\ f variables w2 = (Thrown e, w')) ->
  executeScript host scriptPath variables w
  = (Returned [], console_error host scriptPath e w').
Proof.
  unfold executeScript, tryCatch, bind.
  intros [Haccess | [(w1 & Haccess & Hrequire) | (w1 & w2 & f & Haccess & Hrequire & Hcall)]];
    rewrite Haccess; [done| by rewrite Hrequire |].
  destruct Hrequire as [-> | ->]; by rewrite Hcall.
Qed.

Lemma executeScript_failure_is_logged_witness :
  executeScript loggingHost (js "/missing.js") ∅ [] = (Returned [], [js "/missing.js"]).
Proof.
  apply (executeScript_failure_is_logged loggingHost (js "/missing.js") ∅ []
           SystemError []).
  left. reflexivity.
Defined.

(** ** The model of the transcript *)

Lemma findAssistant_skip {World} (host : Host World) skipped rest :
  Forall (fun line => namesModel (JSON_parse host) line = false) skipped ->
  findAssistant host (skipped ++ rest) = findAssistant host rest.
Proof.
  induction 1 as [|line skipped Hline _ IH]; [done|].
  cbn [app findAssistant]. unfold namesModel in Hline.
  destruct (JSON_parse host line) as [record|]; [|done].
  destruct (bool_decide _); [|done]. cbn in Hline.
  destruct (message record) as [msg|]; [|done]. cbn in Hline.
  by rewrite Hline.
Qed.

(** X19.  The model and the token counts that [parseStatusLineData] shows
    are those of the last line of the transcript that is an assistant record
    with a model: the lines before it do not count, nor do the lines after it
    that are no such record. *)
Theorem findAssistant_last {World} (host : Host World)
    before line after record msg :
  JSON_parse host line = Some record ->
  recordType record = Some (js "assistant") ->
  message record = Some msg ->
  truthy (model msg) = true ->
  Forall (fun l => namesModel (JSON_parse host) l = false) after ->
  findAssistant host (rev (before ++ line :: after))
  = match usage msg with
    | Some u => (orElse (model msg) [], input_tokens u, output_tokens u)
    | None => (orElse (model msg) [], Some 0, Some 0)
    end.
Proof.
  intros Hparse Htype Hmsg Hmodel Hafter.
  rewrite rev_app_distr. cbn [rev]. rewrite <- app_assoc. cbn [app].
  rewrite findAssistant_skip.
  2: { apply Forall_forall. intros l Hl. rewrite Forall_forall in Hafter.
       apply Hafter. rewrite list_elem_of_In in Hl |- *. by rewrite in_rev. }
  cbn [findAssistant]. rewrite Hparse, Htype, Hmsg, Hmodel.
  rewrite bool_decide_eq_true_2 by done. by destruct (usage msg).
Qed.

Lemma findAssistant_last_witness :
  findAssistant (World := unit) quietHost
    (rev ([js "noise"] ++ cachedTurnLine :: [json "{'type':'user'}"; js ""]))
  = (js "m", Some 5000, Some 3000).
Proof.
  eapply eq_trans.
  - eapply (findAssistant_last (World := unit) quietHost [js "noise"] cachedTurnLine
              [json "{'type':'user'}"; js ""]).
    + vm_compute. reflexivity.
    + reflexivity.
    + reflexivity.
    + reflexivity.
    + repeat constructor.
  - reflexivity.
Defined.


(** ** The token statistics *)

Section TokenStatistics.

Variable JSON_parse : jsstring -> option TranscriptRecord.

Lemma lastUsage_snoc before line :
  lastUsage JSON_parse (before ++ [line]) = lastUsage JSON_parse [line].
Proof. unfold lastUsage. by rewrite last_snoc. Qed.

Lemma last_skip {A} (before : list A) x after :
  after <> [] -> last (before ++ x :: after) = last (before ++ after).
Proof.
  intros Hafter. rewrite !last_app, last_cons.
  destruct (last after) eqn:Hlast; [done|]. by apply last_None in Hlast.
Qed.

(** X21.  When the last line of the transcript has a usage with cache
    reads, the statistics are those of that line alone: the lines before it
    do not count, and the tokens used are the four counts of the line, at
    most 200000. *)
Theorem calculateTotalTokens_last_line_only before line u :
  lastUsage JSON_parse [line] = Some u ->
  0 < orZero (cache_read_input_tokens u) ->
  calculateTotalTokens JSON_parse (before ++ [line])
  = calculateTotalTokens JSON_parse [line]
  /\ totalUsed (calculateTotalTokens JSON_parse (before ++ [line]))
     = Z.min 200000
         (orZero (cache_read_input_tokens u) + orZero (input_tokens u)
          + orZero (output_tokens u) + orZero (cache_creation_input_tokens u)).
Proof.
  intros Hlast Hcache. unfold calculateTotalTokens.
  rewrite lastUsage_snoc, Hlast. cbn [mbind option_bind totalUsed].
  destruct (orZero (cache_read_input_tokens u) >? 0) eqn:E; [|lia].
  split; [done|]. case_match; lia.
Qed.

(** X22.  A line that is blank, is not JSON or has no usage changes
    nothing, unless it is the last line of the transcript. *)
Theorem calculateTotalTokens_skips_line before line after :
  after <> [] ->
  isEmpty (trim line) = true \/ (JSON_parse line ≫= message) ≫= usage = None ->
  calculateTotalTokens JSON_parse (before ++ line :: after)
  = calculateTotalTokens JSON_parse (before ++ after).
Proof.
  intros Hafter Hline.
  assert (forall totals, addLine JSON_parse totals line = totals) as Hadd.
  { intros totals. unfold addLine. destruct Hline as [->| Hline]; [done|].
    destruct (isEmpty (trim line)); [done|].
    destruct (JSON_parse line) as [record|]; [|done]. cbn in Hline.
    by rewrite Hline. }
  unfold calculateTotalTokens, lastUsage.
  rewrite last_skip by done. rewrite !fold_left_app. cbn [fold_left].
  by rewrite Hadd.
Qed.

(** X23.  When no count of the transcript is negative, at least one token
    counts as used, so that fewer than 200000 remain; the ceiling is always
    shown as ["200k"]. *)
Theorem calculateTotalTokens_positive lines :
  forallb (nonNegativeLine JSON_parse) lines = true ->
  1 <= totalUsed (calculateTotalTokens JSON_parse lines)
  /\ totalRemaining (calculateTotalTokens JSON_parse lines) <= 199999
  /\ maxTokensFormatted (calculateTotalTokens JSON_parse lines) = js "200k".
Proof.
  intros Hall.
  assert (1 <= totalUsed (calculateTotalTokens JSON_parse lines)) as Hused.
  { unfold calculateTotalTokens. cbn [totalUsed].
    destruct (fold_addLine_nonnegative JSON_parse lines zeroTotals Hall) as [Hin Hout];
      [done|done|].
    destruct (lastUsage JSON_parse lines) as [u|] eqn:Elast.
    - pose proof (lastUsage_nonnegative JSON_parse lines u Hall Elast) as Hu.
      unfold nonNegativeUsage in Hu.
      repeat (apply andb_prop in Hu as [Hu ?]). cbn [mbind option_bind].
      repeat case_match; lia.
    - cbn. repeat case_match; lia. }
  split; [done|]. split; [|reflexivity].
  change (totalRemaining (calculateTotalTokens JSON_parse lines))
    with (Z.max 0 (200000 - totalUsed (calculateTotalTokens JSON_parse lines))).
  lia.
Qed.

End TokenStatistics.

Lemma calculateTotalTokens_last_line_only_witness :
  calculateTotalTokens readTranscriptLine (largeTurnLine :: [cachedTurnLine])
  = calculateTotalTokens readTranscriptLine [cachedTurnLine]
  /\ totalUsed (calculateTotalTokens readTranscriptLine (largeTurnLine :: [cachedTurnLine]))
     = 199000.
Proof.
  apply (calculateTotalTokens_last_line_only readTranscriptLine [largeTurnLine] cachedTurnLine cachedTurnUsage);
    [vm_compute; reflexivity | vm_compute; reflexivity].
Defined.

Lemma calculateTotalTokens_skips_line_witness :
  calculateTotalTokens readTranscriptLine
    ([largeTurnLine] ++ js "not json" :: [cachedTurnLine])
  = calculateTotalTokens readTranscriptLine ([largeTurnLine] ++ [cachedTurnLine]).
Proof.
  apply (calculateTotalTokens_skips_line readTranscriptLine [largeTurnLine] (js "not json") [cachedTurnLine]);
    [discriminate | right; vm_compute; reflexivity].
Defined.

(** As the last line, the same line changes the result. *)
Example calculateTotalTokens_last_line_counts :
  totalUsed (calculateTotalTokens readTranscriptLine [cachedTurnLine]) = 199000
  /\ totalUsed (calculateTotalTokens readTranscriptLine [cachedTurnLine; js "not json"])
     = 8000.
Proof. split; vm_compute; reflexivity. Qed.

Lemma calculateTotalTokens_positive_witness :
  1 <= totalUsed (calculateTotalTokens readTranscriptLine (split 10%N (trim exampleTranscript)))
  /\ totalRemaining (calculateTotalTokens readTranscriptLine (split 10%N (trim exampleTranscript)))
     <= 199999
  /\ maxTokensFormatted (calculateTotalTokens readTranscriptLine (split 10%N (trim exampleTranscript)))
     = js "200k".
Proof.
  apply (calculateTotalTokens_positive readTranscriptLine (split 10%N (trim exampleTranscript))).
  vm_compute. reflexivity.
Defined.

(** ** The rendered line *)







Lemma forLoop_unchanged_pair {World St St'}
    (body : nat -> St -> M World St) (body' : nat -> St' -> M World St') i n s s' w :
  (forall j v, (i <= j < i + n)%nat ->
               exists v', body j s v = (Returned s, v')
                          /\ body' j s' v = (Returned s', v')) ->
  exists w', forLoop body i n s w = (Returned s, w')
             /\ forLoop body' i n s' w = (Returned s', w').
Proof.
  revert i w. induction n as [|n IH]; intros i w Hbody; [by exists w|].
  cbn [forLoop]. unfold bind.
  destruct (Hbody i w) as (v' & -> & ->); [lia|].
  apply IH. intros j v Hj. apply Hbody. lia.
Qed.

Section RenderedLine.

Context {World : Type} (host : Host World).




(** X25.  A theme of which each of the first five modules gives an empty
    text, be it from an empty template or from a script that fails or
    returns nothing, renders as the empty line in both styles, whatever the
    icons and the colours of the modules; the effects of getting the texts
    are the same in both styles. *)
Theorem empty_texts_render_empty ms variables w :
  Forall (fun m => forall v, exists v', moduleText host m variables v = (Returned [], v'))
    (take 5 ms) ->
  exists w',
    renderDefaultStyle host {| modules := Some ms |} variables w = (Returned [], w')
    /\ renderPowerlineStyle host {| modules := Some ms |} variables w
       = (Returned [], w').
Proof.
  intros Hempty.
  unfold renderDefaultStyle, renderPowerlineStyle, bind.
  cbn [modules default from_option id].
  destruct (forLoop_unchanged_pair (defaultIteration host ms variables)
              (powerlineIteration host ms variables) 0 (min (length ms) 5) [] [] w)
    as (w' & -> & ->); [|by exists w'].
  intros j v Hj. destruct (lookup_lt_is_Some_2 ms j) as [m Hm]; [lia|].
  rewrite Forall_lookup in Hempty.
  assert (take 5 ms !! j = Some m) as Htake by (by rewrite lookup_take_lt by lia).
  destruct (Hempty j m Htake v) as [v' Htext]. exists v'.
  unfold defaultIteration, defaultPart, powerlineIteration, bind.
  rewrite Hm, Htext. by rewrite orb_true_r.
Qed.

End RenderedLine.

Lemma empty_texts_render_empty_witness :
  exists log,
    renderDefaultStyle loggingHost
      {| modules := Some [textModule "" (Some (js "I")) (Some (js "bg_red"));
                          missingScript] |} ∅ []
    = (Returned [], log)
    /\ renderPowerlineStyle loggingHost
         {| modules := Some [textModule "" (Some (js "I")) (Some (js "bg_red"));
                             missingScript] |} ∅ []
       = (Returned [], log).
Proof.
  apply (empty_texts_render_empty loggingHost).
  repeat constructor; intros v; eexists; reflexivity.
Defined.

(** The failing script of the example leaves its path in the log. *)
Example empty_texts_render_empty_log :
  renderDefaultStyle loggingHost
    {| modules := Some [textModule "" (Some (js "I")) (Some (js "bg_red"));
                        missingScript] |} ∅ []
  = (Returned [], [js "/missing.js"]).
Proof. reflexivity. Qed.

(** ** The entry point *)

(** X26.  For an input without workspace [parseStatusLineData] returns the
    empty line, and the only effect is that of the lookup of the theme: git
    is not run and the transcript is not read. *)
Theorem parseStatusLineData_without_workspace {World} (host : Host World) input w :
  Input.workspace input = None ->
  exists found w',
    getProjectThemeConfig host w = (Returned found, w')
    /\ parseStatusLineData host input w = (Returned [], w').
Proof.
  intros Hws. unfold parseStatusLineData, tryCatch, parseStatusLineData_body, bind.
  destruct (getProjectThemeConfig_returns host w) as ([theme style] & w1 & ->).
  rewrite Hws. cbn. eauto.
Qed.

Lemma parseStatusLineData_without_workspace_witness :
  exists found w',
    getProjectThemeConfig configuredHost tt = (Returned found, w')
    /\ parseStatusLineData configuredHost
         {| Input.session_id := None; Input.transcript_path := Some (js "/t.jsonl");
            Input.cwd := None; Input.model := None; Input.workspace := None |} tt
       = (Returned [], w').
Proof.
  apply (parseStatusLineData_without_workspace configuredHost). reflexivity.
Defined.

(** X27.  When the transcript cannot be read, [parseStatusLineData] returns
    the empty line, whether git gave a branch or not. *)
Theorem parseStatusLineData_without_transcript {World} (host : Host World)
    input ws path w :
  Input.workspace input = Some ws ->
  Input.transcript_path input = Some path ->
  (forall v, exists e v', fs_readFile host path v = (Thrown e, v')) ->
  exists w', parseStatusLineData host input w = (Returned [], w').
Proof.
  intros Hws Hpath Hread.
  unfold parseStatusLineData, parseStatusLineData_body, tryCatch, bind.
  destruct (getProjectThemeConfig_returns host w) as ([theme style] & w1 & ->).
  rewrite Hws, Hpath. cbn [ret].
  destruct (execSync_git_branch host (Input.current_dir ws) w1) as [[out|e] w2];
    cbn [ret];
    match goal with
    | |- context [fs_readFile host path ?v] => destruct (Hread v) as (e' & v' & ->)
    end; eauto.
Qed.

Lemma parseStatusLineData_without_transcript_witness :
  exists w', parseStatusLineData configuredHost exampleInput tt = (Returned [], w').
Proof.
  eapply (parseStatusLineData_without_transcript configuredHost exampleInput).
  - reflexivity.
  - reflexivity.
  - intros []. by exists SystemError, tt.
Defined.

(** X28.  When the transcript names no model, the model is the second
    field of [Router.default], without the white space around it: the
    configuration of the project when it can be accessed, that of the home
    directory otherwise. *)
Theorem modelFromConfig_second_field {World} (host : Host World)
    dir accessed w w1 w2 content config provider configuredModel :
  fs_access host (path_join host [dir; js ".claude-code-router"; js "config.json"]) w
  = (accessed, w1) ->
  fs_readFile host
    (match accessed with
     | Returned _ => path_join host [dir; js ".claude-code-router"; js "config.json"]
     | Thrown _ => CONFIG_FILE host
     end) w1 = (Returned content, w2) ->
  JSON5_parse host content = Some config ->
  Router config ≫= Router_default = Some (provider ++ js "," ++ configuredModel) ->
  Forall (fun c => c <> 44%N) provider ->
  Forall (fun c => c <> 44%N) configuredModel ->
  configuredModel <> [] ->
  modelFromConfig host (Some dir) w = (Returned (trim configuredModel), w2).
Proof.
  intros Haccess Hread Hparse Hroute Hprovider Hmodel Hne.
  unfold modelFromConfig, tryCatch, bind, parseConfig, ret.
  rewrite Haccess.
  destruct accessed as [[]|e]; rewrite Hread, Hparse, Hroute;
    change (provider ++ js "," ++ configuredModel)
      with (provider ++ 44%N :: configuredModel);
    (destruct (provider ++ 44%N :: configuredModel) eqn:Hroute';
     [by destruct provider|]; rewrite <- Hroute');
    rewrite split_two by done; by destruct configuredModel.
Qed.

Lemma modelFromConfig_second_field_witness :
  modelFromConfig configuredHost (Some (js "/home/u/proj")) tt
  = (Returned (js "model-x"), tt).
Proof.
  apply (modelFromConfig_second_field configuredHost (js "/home/u/proj")
           (Thrown SystemError) tt tt tt (js "config") exampleConfig
           (js "provider") (js " model-x "));
    try reflexivity; try discriminate; repeat constructor; discriminate.
Defined.
